(** * Exercise 3 of the Modin tutorial: default to pandas, custom reductions

    A shallow embedding of the code cells of
    [examples/tutorial/tutorial_notebooks/introduction/exercise_3.ipynb].

    The notebook is a script over three libraries (numpy, pandas and modin)
    and the Python runtime.  Its own code is embedded cell by cell as
    programs of a small state-and-exception monad; what the cells call is
    collected in the interface [Host].  The import lines of cells 4 and 10
    bind module names only and are not modelled: the cells are read in a
    kernel where those lines have run.  Cells are numbered as in the notebook
    file, counting markdown cells, from 0: the code cells are 4, 5, 6, 7, 10,
    11, 12, 13, 14, 17 and 18. *)

From Stdlib Require Import ZArith NArith String Ascii List Floats.
From stdpp Require Import base option strings gmap pretty list.

Local Open Scope Z_scope.

(** ** Data *)

(** A row or column label: an integer of a [RangeIndex], or a string. *)
Inductive label :=
| LInt (n : Z)
| LStr (s : string).

#[global] Instance label_eq_dec : EqDecision label.
Proof. solve_decision. Defined.

(** A two-dimensional integer array, the result of [np.random.randint] with
    [size=(nrows, ncols)].  The cells are read on demand: the fixture of the
    notebook has 2**26 of them.  Arrays are values: no statement of the
    notebook updates one in place, and the library calls are taken not to
    write to their arguments. *)
Record ndarray := {
  nrows : N;
  ncols : N;
  cell : N -> N -> Z
}.

(** A plain (in-memory) pandas dataframe over a numeric table; its row labels
    are the default [RangeIndex]. *)
Record frame := {
  columns : list label;
  values : ndarray
}.

(** A plain pandas series of floats, what a reduction of a frame returns. *)
Record series := {
  index : list label;
  data : list float
}.

(** A value passed as a keyword argument ([axis=0], [skipna=None], ...). *)
Inductive argval :=
| ANone
| ABool (b : bool)
| AInt (n : Z)
| AStr (s : string).

#[global] Instance argval_eq_dec : EqDecision argval.
Proof. solve_decision. Defined.

(** The keyword arguments of a call, by name. *)
Abbreviation keywords := (gmap string argval).

(** ** The pandas surface the notebook uses *)

Module pandas.

(** [pandas.DataFrame(a)] for a 2-d array: the columns are labelled
    0 .. ncols-1. *)
Definition DataFrame (a : ndarray) : frame :=
  {| columns := LInt <$> seqZ 0 (Z.of_N (ncols a)); values := a |}.

(** [str(label)]: what ["{prefix}{}".format] shows of a label. *)
Definition label_str (l : label) : string :=
  match l with
  | LInt n => pretty n
  | LStr s => s
  end.

(** [frame.add_prefix(prefix)]: every column label [l] becomes the string
    [prefix + str(l)]; the data are unchanged. *)
Definition add_prefix (prefix : string) (f : frame) : frame :=
  {| columns := (fun l => LStr (prefix +:+ label_str l)) <$> columns f;
     values := values f |}.

(** Two floats are the same element for [equals]: equal, or both NaN. *)
Definition same_element (x y : float) : bool :=
  PrimFloat.eqb x y || (PrimFloat.is_nan x && PrimFloat.is_nan y).

Fixpoint same_elements (xs ys : list float) : bool :=
  match xs, ys with
  | [], [] => true
  | x :: xs', y :: ys' => same_element x y && same_elements xs' ys'
  | _, _ => false
  end.

(** [a.equals(b)] for two series: the same labels and, position by
    position, the same elements.  (Every series here holds floats, so the
    dtypes agree.) *)
Definition equals (a b : series) : bool :=
  bool_decide (index a = index b) && same_elements (data a) (data b).

(** Whether a label is a string that starts with [prefix]. *)
Definition has_prefix (prefix : string) (l : label) : bool :=
  match l with
  | LStr s => String.prefix prefix s
  | LInt _ => false
  end.

End pandas.

(** A function of the pandas namespace passed around as a value:
    [pandas.DataFrame.kurtosis] is [PandasDataFrame "kurtosis"]. *)
Inductive pandas_function :=
| PandasDataFrame (attr : string).

#[global] Instance pandas_function_eq_dec : EqDecision pandas_function.
Proof. solve_decision. Defined.

(** ** What the cells call

    The Python runtime, numpy, pandas and the modin engine are not part of the
    notebook.  A [Host] gives the operations of theirs that the cells reach;
    every theorem below holds for every host.  Library calls are taken on
    their normal return. *)
Class Host := {
  (** [time.time()]: the reading returned by the k-th call. *)
  wall_clock : nat -> float;
  (** [round(x, ndigits)] on a float. *)
  py_round : float -> Z -> float;
  (** ["{}".format(x)] for a float. *)
  float_str : float -> string;
  (** [np.random.randint(low, high, size=(rows, cols))], k-th draw. *)
  randint : nat -> Z -> Z -> N -> N -> ndarray;
  (** [pandas.DataFrame.<attr>(f, ...)] with keywords [kw], for a reduction [attr]. *)
  pandas_reduce : string -> frame -> keywords -> series;
  (** A query compiler: modin's distributed, partitioned frame. *)
  qc : Type;
  (** Distribute a pandas frame, and collect one back. *)
  from_pandas : frame -> qc;
  to_pandas : qc -> frame;
  (** The same for a one-dimensional result. *)
  series_from_pandas : series -> qc;
  series_to_pandas : qc -> series;
  (** [add_prefix] at the query-compiler level. *)
  qc_add_prefix : string -> qc -> qc;
  (** What the callable built by [Reduction.register(f)] computes on a query
      compiler: [f] run as a reduction over the partitions. *)
  reduction : pandas_function -> qc -> keywords -> qc;
  (** A query-compiler method that ships with the library. *)
  qc_native : string -> qc -> keywords -> qc
}.

(** What numpy and modin promise of these operations, as far as the
    notebook relies on it: a draw has the shape asked for and its cells lie
    in [[low, high)]; collecting a distributed frame gives back the frame
    that was distributed; and [add_prefix] on a distributed frame is pandas'
    [add_prefix] on its contents. *)
Class HostLaws (H : Host) : Prop := {
  randint_shape : forall k low high rows cols,
    nrows (randint k low high rows cols) = rows /\
    ncols (randint k low high rows cols) = cols;
  randint_range : forall k low high rows cols i j,
    low < high -> (i < rows)%N -> (j < cols)%N ->
    low <= cell (randint k low high rows cols) i j < high;
  to_pandas_from_pandas : forall f, to_pandas (from_pandas f) = f;
  to_pandas_add_prefix : forall prefix q,
    to_pandas (qc_add_prefix prefix q) = pandas.add_prefix prefix (to_pandas q)
}.

(** ** Callables held by the two classes *)

(** A method of [PandasQueryCompiler]. *)
Inductive qc_method :=
| Registered (f : pandas_function)
| QCNative (name : string).

#[global] Instance qc_method_eq_dec : EqDecision qc_method.
Proof. solve_decision. Defined.

Module Reduction.

(** [Reduction.register(f)]: the query-compiler method that runs [f] as a
    reduction. *)
Definition register (f : pandas_function) : qc_method := Registered f.

End Reduction.

(** A method of [pd.DataFrame] that the notebook reaches by attribute lookup:
    an aggregate without a distributed implementation, or the function the
    notebook defines in cell 12. *)
Inductive df_method :=
| DefaultToPandas (attr : string)
| Fn_kurtosis_func.

#[global] Instance df_method_eq_dec : EqDecision df_method.
Proof. solve_decision. Defined.

(** Which library a dataframe belongs to. *)
Inductive library := Modin | Pandas.

#[global] Instance library_eq_dec : EqDecision library.
Proof. solve_decision. Defined.

(** Exceptions the cells can end in. *)
Inductive exn :=
| AssertionError (msg : string)
| NameError (name : string)
| AttributeError (attr : string)
| TypeError (what : string).

#[global] Instance exn_eq_dec : EqDecision exn.
Proof. solve_decision. Defined.

(** How a statement ends. *)
Inductive outcome (A : Type) :=
| Returns (a : A)
| Raises (e : exn).

Arguments Returns {A} a.
Arguments Raises {A} e.

Section Notebook.

Context {H : Host}.

(** ** Objects *)

(** [pd.DataFrame] and [pd.Series]: modin's distributed objects, each a
    handle on a query compiler. *)
Record DataFrame := { _query_compiler : qc }.
Record Series := { _series_query_compiler : qc }.

(** A Python object bound to a name of the notebook, or printed. *)
Inductive pyval :=
| VNone
| VEllipsis
| VFloat (x : float)
| VStr (s : string)
| VArray (a : ndarray)
| VPandasDataFrame (f : frame)
| VPandasSeries (s : series)
| VModinDataFrame (d : DataFrame)
| VModinSeries (s : Series)
| VFunction (m : df_method).

(** What the outside world sees of a run, in order. *)
Inductive event :=
| EvTime (t : float)
| EvRandint (low high : Z) (rows cols : N)
| EvAggregate (lib : library) (attr : string)
| EvQuery (attr : string) (kw : keywords)
| EvWarn (category message : string)
| EvPrint (v : pyval).

(** The interpreter's state: the notebook's namespace, the attributes of the
    two classes the notebook assigns to, how often the clock and the random
    generator have been asked, and the events so far. *)
Record state := {
  globals : gmap string pyval;
  DataFrame_attrs : gmap string df_method;
  PandasQueryCompiler_attrs : gmap string qc_method;
  ticks : nat;
  draws : nat;
  trace : list event
}.

Definition with_globals (g : gmap string pyval) (s : state) : state :=
  {| globals := g; DataFrame_attrs := DataFrame_attrs s;
     PandasQueryCompiler_attrs := PandasQueryCompiler_attrs s;
     ticks := ticks s; draws := draws s; trace := trace s |}.

Definition with_DataFrame_attrs (t : gmap string df_method) (s : state) : state :=
  {| globals := globals s; DataFrame_attrs := t;
     PandasQueryCompiler_attrs := PandasQueryCompiler_attrs s;
     ticks := ticks s; draws := draws s; trace := trace s |}.

Definition with_PandasQueryCompiler_attrs (t : gmap string qc_method) (s : state) : state :=
  {| globals := globals s; DataFrame_attrs := DataFrame_attrs s;
     PandasQueryCompiler_attrs := t;
     ticks := ticks s; draws := draws s; trace := trace s |}.

Definition with_event (e : event) (s : state) : state :=
  {| globals := globals s; DataFrame_attrs := DataFrame_attrs s;
     PandasQueryCompiler_attrs := PandasQueryCompiler_attrs s;
     ticks := ticks s; draws := draws s; trace := trace s ++ [e] |}.

Definition with_tick (s : state) : state :=
  {| globals := globals s; DataFrame_attrs := DataFrame_attrs s;
     PandasQueryCompiler_attrs := PandasQueryCompiler_attrs s;
     ticks := S (ticks s); draws := draws s; trace := trace s |}.

Definition with_draw (s : state) : state :=
  {| globals := globals s; DataFrame_attrs := DataFrame_attrs s;
     PandasQueryCompiler_attrs := PandasQueryCompiler_attrs s;
     ticks := ticks s; draws := S (draws s); trace := trace s |}.

(** ** Statements: state passing with exceptions *)

Definition M (A : Type) : Type := state -> outcome A * state.

Definition ret {A} (a : A) : M A := fun s => (Returns a, s).

Definition bind {A B} (c : M A) (k : A -> M B) : M B :=
  fun s =>
    match c s with
    | (Returns a, s') => k a s'
    | (Raises e, s') => (Raises e, s')
    end.

Definition raise {A} (e : exn) : M A := fun s => (Raises e, s).

#[global] Instance M_ret : MRet M := @ret.
#[global] Instance M_bind : MBind M := fun A B k c => bind c k.

(** Reading a name of the notebook; an unbound one is a [NameError]. *)
Definition get_global (name : string) : M pyval :=
  fun s =>
    match globals s !! name with
    | Some v => (Returns v, s)
    | None => (Raises (NameError name), s)
    end.

(** [name = v]. *)
Definition set_global (name : string) (v : pyval) : M unit :=
  fun s => (Returns tt, with_globals (<[name := v]> (globals s)) s).

Definition emit (e : event) : M unit :=
  fun s => (Returns tt, with_event e s).

(** [time.time()]. *)
Definition time_time : M float :=
  fun s =>
    let t := wall_clock (ticks s) in
    (Returns t, with_event (EvTime t) (with_tick s)).

(** [np.random.randint(low, high, size=(rows, cols))]. *)
Definition np_random_randint (low high : Z) (rows cols : N) : M ndarray :=
  fun s =>
    (Returns (randint (draws s) low high rows cols),
     with_event (EvRandint low high rows cols) (with_draw s)).

(** [print(v)]. *)
Definition print (v : pyval) : M unit := emit (EvPrint v).

(** [warnings.warn(message, category)]. *)
Definition warn (category message : string) : M unit :=
  emit (EvWarn category message).

(** [assert cond, msg]. *)
Definition assert (cond : bool) (msg : string) : M unit :=
  if cond then ret tt else raise (AssertionError msg).

(** A float operand of [-] or [>]; anything else is a [TypeError]. *)
Definition as_float (v : pyval) : M float :=
  match v with
  | VFloat x => ret x
  | _ => raise (TypeError "unsupported operand type(s)")
  end.

(** [cls.name = m] for the two classes. *)
Definition setattr_PandasQueryCompiler (name : string) (m : qc_method) : M unit :=
  fun s =>
    (Returns tt,
     with_PandasQueryCompiler_attrs (<[name := m]> (PandasQueryCompiler_attrs s)) s).

Definition setattr_DataFrame (name : string) (m : df_method) : M unit :=
  fun s => (Returns tt, with_DataFrame_attrs (<[name := m]> (DataFrame_attrs s)) s).

(** Attribute lookup through an instance: the class's attribute, or an
    [AttributeError]. *)
Definition getattr_PandasQueryCompiler (name : string) : M qc_method :=
  fun s =>
    match PandasQueryCompiler_attrs s !! name with
    | Some m => (Returns m, s)
    | None => (Raises (AttributeError name), s)
    end.

Definition getattr_DataFrame (name : string) : M df_method :=
  fun s =>
    match DataFrame_attrs s !! name with
    | Some m => (Returns m, s)
    | None => (Raises (AttributeError name), s)
    end.

(** ** The modin surface the notebook uses *)

(** Modelled from the spec: modin's [pd.DataFrame] constructor, which is not
    in the notebook.  A dataframe built from an array holds the
    distributed form of the pandas frame over that array. *)
Definition pd_DataFrame (a : ndarray) : DataFrame :=
  {| _query_compiler := from_pandas (pandas.DataFrame a) |}.

(** Modelled from the spec: modin's [DataFrame.add_prefix], which is not in
    the notebook; it is the query compiler's. *)
Definition pd_add_prefix (prefix : string) (d : DataFrame) : DataFrame :=
  {| _query_compiler := qc_add_prefix prefix (_query_compiler d) |}.

(** Modelled from the spec: modin's [DataFrame._reduce_dimension], which is
    not in the notebook ("Reduce dimension is used for reductions"): the
    query compiler of a reduced frame becomes a distributed series. *)
Definition _reduce_dimension (self : DataFrame) (query_compiler : qc) : Series :=
  {| _series_query_compiler := query_compiler |}.

(** Modelled from the spec: modin's [Series._to_pandas], which is not in the
    notebook: the series materialized locally. *)
Definition _to_pandas (self : Series) : series :=
  series_to_pandas (_series_query_compiler self).

(** The text of the warning of cell 2 for [DataFrame.<attr>]. *)
Definition default_warning (attr : string) : string :=
  "`DataFrame." +:+ attr +:+ "` defaulting to pandas implementation.".

(** Modelled from the spec: modin's default-to-pandas path, which is not in
    the notebook (cell 2: "We convert a Modin dataframe to pandas to do the
    operation, then convert it back once it is finished", under a
    [UserWarning]). *)
Definition default_to_pandas (attr : string) (self : DataFrame) (kw : keywords)
  : M pyval :=
  warn "UserWarning" (default_warning attr);;
  mret (VModinSeries
          {| _series_query_compiler :=
               series_from_pandas
                 (pandas_reduce attr (to_pandas (_query_compiler self)) kw) |}).

(** What a query-compiler method computes. *)
Definition apply_qc_method (m : qc_method) (q : qc) (kw : keywords) : qc :=
  match m with
  | Registered f => reduction f q kw
  | QCNative name => qc_native name q kw
  end.

(** [q.name(...)] with keywords [kw] on a query compiler [q]: the method is looked up on the
    class, then called. *)
Definition call_query_compiler (q : qc) (name : string) (kw : keywords) : M qc :=
  m ← getattr_PandasQueryCompiler name;
  emit (EvQuery name kw);;
  mret (apply_qc_method m q kw).

(** ** Cell 12: [kurtosis_func] *)

(** The keyword arguments of the inner call
    [kurtosis_custom(axis=axis, skipna=skipna, level=level,
    numeric_only=numeric_only, **kwargs)].  Python binds a keyword that
    names a parameter to that parameter, so [kwargs] never holds one of the
    four names. *)
Definition forwarded (axis skipna level numeric_only : argval) (kwargs : keywords)
  : keywords :=
  <["axis" := axis]>
    (<["skipna" := skipna]>
       (<["level" := level]>
          (<["numeric_only" := numeric_only]> kwargs))).

(** [def kurtosis_func(self, axis=None, skipna=None, level=None,
                       numeric_only=None, **kwargs)]. *)
Definition kurtosis_func (self : DataFrame)
    (axis skipna level numeric_only : argval) (kwargs : keywords) : M pyval :=
  let axis := if decide (axis = ANone) then AInt 0 else axis in
  r ← call_query_compiler (_query_compiler self) "kurtosis_custom"
        (forwarded axis skipna level numeric_only kwargs);
  mret (VModinSeries (_reduce_dimension self r)).

(** The parameter [name] of a call with keywords [kw]: the keyword given, or
    the default [None]. *)
Definition parameter (name : string) (kw : keywords) : argval :=
  default ANone (kw !! name).

(** The keywords that name no parameter of [kurtosis_func]: its [**kwargs]. *)
Definition extra_keywords (kw : keywords) : keywords :=
  delete "axis" (delete "skipna" (delete "level" (delete "numeric_only" kw))).

(** Calling a method of [pd.DataFrame] on [self] with keywords [kw]. *)
Definition invoke (m : df_method) (self : DataFrame) (kw : keywords) : M pyval :=
  match m with
  | DefaultToPandas attr => default_to_pandas attr self kw
  | Fn_kurtosis_func =>
      kurtosis_func self (parameter "axis" kw) (parameter "skipna" kw)
        (parameter "level" kw) (parameter "numeric_only" kw) (extra_keywords kw)
  end.

(** [obj.name(...)] with keywords [kw] for a dataframe [obj].  On a modin dataframe the
    attribute is looked up on [pd.DataFrame]; on a pandas dataframe it is
    pandas' own reduction. *)
Definition call_method (obj : pyval) (name : string) (kw : keywords) : M pyval :=
  match obj with
  | VModinDataFrame d =>
      m ← getattr_DataFrame name;
      emit (EvAggregate Modin name);;
      invoke m d kw
  | VPandasDataFrame f =>
      emit (EvAggregate Pandas name);;
      mret (VPandasSeries (pandas_reduce name f kw))
  | _ => raise (AttributeError name)
  end.

(** [isinstance(v, pd.Series)]. *)
Definition isinstance_pd_Series (v : pyval) : bool :=
  match v with
  | VModinSeries _ => true
  | _ => false
  end.

(** [v._to_pandas()]. *)
Definition call_to_pandas (v : pyval) : M pyval :=
  match v with
  | VModinSeries s => mret (VPandasSeries (_to_pandas s))
  | VModinDataFrame d => mret (VPandasDataFrame (to_pandas (_query_compiler d)))
  | _ => raise (AttributeError "_to_pandas")
  end.

(** [a.equals(b)] for a pandas series [a]: false when [b] is no series. *)
Definition call_equals (a b : pyval) : M bool :=
  match a with
  | VPandasSeries x =>
      match b with
      | VPandasSeries y => mret (pandas.equals x y)
      | _ => mret false
      end
  | _ => raise (AttributeError "equals")
  end.

(** [a - b] and [a > b] on floats. *)
Definition minus (a b : float) : float := PrimFloat.sub a b.
Definition greater (a b : float) : bool := PrimFloat.ltb b a.

(** [a - b] on two objects: both operands are evaluated first. *)
Definition py_minus (a b : pyval) : M float :=
  x ← as_float a;
  y ← as_float b;
  mret (minus x y).

(** ** The code cells *)

(** The array argument of a dataframe constructor. *)
Definition as_array (v : pyval) : M ndarray :=
  match v with
  | VArray a => mret a
  | _ => raise (TypeError "DataFrame constructor not properly called")
  end.

(** Cell 4 (the imports bind module names only, and are not modelled):
[[
frame_data = np.random.randint(0, 100, size=(2**18, 2**8))
df = pd.DataFrame(frame_data).add_prefix("col")
]] *)
Definition cell_4 : M unit :=
  a ← np_random_randint 0 100 (2 ^ 18) (2 ^ 8);
  set_global "frame_data" (VArray a);;
  frame_data ← get_global "frame_data";
  a ← as_array frame_data;
  set_global "df" (VModinDataFrame (pd_add_prefix "col" (pd_DataFrame a))).

(** Cell 5:
[[
pandas_df = pandas.DataFrame(frame_data).add_prefix("col")
]] *)
Definition cell_5 : M unit :=
  frame_data ← get_global "frame_data";
  a ← as_array frame_data;
  set_global "pandas_df"
    (VPandasDataFrame (pandas.add_prefix "col" (pandas.DataFrame a))).

(** ["<who> took {} seconds.".format(x)]. *)
Definition took (who : string) (x : float) : pyval :=
  VStr (who +:+ " took " +:+ float_str x +:+ " seconds.").

(** Cell 6:
[[
modin_start = time.time()
print(df.kurtosis())
modin_end = time.time()
print("Modin kurtosis took {} seconds.".format(round(modin_end - modin_start, 4)))
]] *)
Definition cell_6 : M unit :=
  t ← time_time;
  set_global "modin_start" (VFloat t);;
  df ← get_global "df";
  r ← call_method df "kurtosis" ∅;
  print r;;
  t ← time_time;
  set_global "modin_end" (VFloat t);;
  modin_end ← get_global "modin_end";
  modin_start ← get_global "modin_start";
  elapsed ← py_minus modin_end modin_start;
  print (took "Modin kurtosis" (py_round elapsed 4)).

(** Cell 7: the same on [pandas_df], under the names [pandas_start] and
    [pandas_end]. *)
Definition cell_7 : M unit :=
  t ← time_time;
  set_global "pandas_start" (VFloat t);;
  pandas_df ← get_global "pandas_df";
  r ← call_method pandas_df "kurtosis" ∅;
  print r;;
  t ← time_time;
  set_global "pandas_end" (VFloat t);;
  pandas_end ← get_global "pandas_end";
  pandas_start ← get_global "pandas_start";
  elapsed ← py_minus pandas_end pandas_start;
  print (took "pandas kurtosis" (py_round elapsed 4)).

(** Cell 10 imports [PandasQueryCompiler] and [Reduction]: names only. *)
Definition cell_10 : M unit := mret tt.

(** Cell 11:
[[
PandasQueryCompiler.kurtosis_custom = Reduction.register(pandas.DataFrame.kurtosis)
]] *)
Definition cell_11 : M unit :=
  setattr_PandasQueryCompiler "kurtosis_custom"
    (Reduction.register (PandasDataFrame "kurtosis")).

(** The function a name must hold to become a method. *)
Definition as_function (v : pyval) : M df_method :=
  match v with
  | VFunction m => mret m
  | _ => raise (TypeError "not a function")
  end.

(** Cell 12: the [def] binds the name [kurtosis_func]; then
[[
pd.DataFrame.kurtosis_custom = kurtosis_func
]] *)
Definition cell_12 : M unit :=
  set_global "kurtosis_func" (VFunction Fn_kurtosis_func);;
  f ← get_global "kurtosis_func";
  f ← as_function f;
  setattr_DataFrame "kurtosis_custom" f.

(** Cells 13 and 14:
[[
start = time.time()
print(df.kurtosis())          # cell 14: df.kurtosis_custom()
end = time.time()
print("Modin kurtosis took {} seconds.".format(end - start))
]] *)
Definition timed (attr : string) : M unit :=
  t ← time_time;
  set_global "start" (VFloat t);;
  df ← get_global "df";
  r ← call_method df attr ∅;
  print r;;
  t ← time_time;
  set_global "end" (VFloat t);;
  end_ ← get_global "end";
  start ← get_global "start";
  elapsed ← py_minus end_ start;
  print (took ("Modin " +:+ attr) elapsed).

Definition cell_13 : M unit := timed "kurtosis".
Definition cell_14 : M unit := timed "kurtosis_custom".

(** Cell 17, as shipped:
[[
modin_mad_start = time.time()
modin_mad = ...
modin_mad_end = time.time()
]] *)
Definition cell_17 : M unit :=
  t ← time_time;
  set_global "modin_mad_start" (VFloat t);;
  set_global "modin_mad" VEllipsis;;
  t ← time_time;
  set_global "modin_mad_end" (VFloat t).

Definition not_distributed : string :=
  "This is not a distributed Modin object, try again".
Definition too_slow : string :=
  "Your implementation was too slow, or you used the defaulting to pandas approach. Try again".
Definition no_match : string :=
  "Your result did not match the result of pandas, tray again".

(** Cell 18, the evaluation:
[[
pandas_mad_start = time.time()
pandas_mad = pandas_df.mad()
pandas_mad_end = time.time()

assert isinstance(modin_mad, pd.Series), "This is not a distributed Modin object, try again"
assert pandas_mad_end - pandas_mad_start > modin_mad_end - modin_mad_start, \
    "Your implementation was too slow, or you used the defaulting to pandas approach. Try again"
assert modin_mad._to_pandas().equals(pandas_mad), "Your result did not match the result of pandas, tray again"
]] *)
Definition cell_18 : M unit :=
  t ← time_time;
  set_global "pandas_mad_start" (VFloat t);;
  pandas_df ← get_global "pandas_df";
  r ← call_method pandas_df "mad" ∅;
  set_global "pandas_mad" r;;
  t ← time_time;
  set_global "pandas_mad_end" (VFloat t);;
  modin_mad ← get_global "modin_mad";
  assert (isinstance_pd_Series modin_mad) not_distributed;;
  pandas_mad_end ← get_global "pandas_mad_end";
  pandas_mad_start ← get_global "pandas_mad_start";
  pandas_time ← py_minus pandas_mad_end pandas_mad_start;
  modin_mad_end ← get_global "modin_mad_end";
  modin_mad_start ← get_global "modin_mad_start";
  modin_time ← py_minus modin_mad_end modin_mad_start;
  assert (greater pandas_time modin_time) too_slow;;
  modin_mad ← get_global "modin_mad";
  local ← call_to_pandas modin_mad;
  pandas_mad ← get_global "pandas_mad";
  same ← call_equals local pandas_mad;
  assert same no_match.

(** The notebook: its code cells in order.  A cell that raises stops the
    run. *)
Fixpoint run (cells : list (M unit)) : M unit :=
  match cells with
  | [] => mret tt
  | c :: rest => c;; run rest
  end.

Definition notebook : list (M unit) :=
  [cell_4; cell_5; cell_6; cell_7; cell_10; cell_11; cell_12; cell_13;
   cell_14; cell_17; cell_18].

(** The array cell 4 draws when run in state [s]. *)
Definition drawn (s : state) : ndarray :=
  randint (draws s) 0 100 (2 ^ 18) (2 ^ 8).

(** The cells below the two that build the fixture. *)
Definition later_cells : list (M unit) :=
  [cell_6; cell_7; cell_10; cell_11; cell_12; cell_13; cell_14; cell_17;
   cell_18].

(** The inputs of every comparison: the array and the two dataframes. *)
Definition inputs (s : state) : option pyval * option pyval * option pyval :=
  (globals s !! "frame_data", globals s !! "df", globals s !! "pandas_df").

(** The cells that time an aggregate and print the elapsed time. *)
Inductive timing_cell := Cell6 | Cell7 | Cell13 | Cell14.

Definition program (c : timing_cell) : M unit :=
  match c with
  | Cell6 => cell_6
  | Cell7 => cell_7
  | Cell13 => cell_13
  | Cell14 => cell_14
  end.

(** Whether the cell rounds the elapsed time to four decimals. *)
Definition rounds (c : timing_cell) : bool :=
  match c with
  | Cell6 | Cell7 => true
  | Cell13 | Cell14 => false
  end.

(** The subject of the cell's message. *)
Definition who (c : timing_cell) : string :=
  match c with
  | Cell6 => "Modin kurtosis"
  | Cell7 => "pandas kurtosis"
  | Cell13 => "Modin kurtosis"
  | Cell14 => "Modin kurtosis_custom"
  end.

(** The dataframe the cell works on, and the aggregate it calls. *)
Definition subject (c : timing_cell) : string :=
  match c with
  | Cell7 => "pandas_df"
  | _ => "df"
  end.

Definition aggregate (c : timing_cell) : string :=
  match c with
  | Cell14 => "kurtosis_custom"
  | _ => "kurtosis"
  end.

(** ** Specifications of statements *)

(** [wp c Q s]: run from [s], statement [c] ends in an outcome and a state
    that satisfy [Q].  Statements are total functions, so this is both that
    [c] ends and what it ends in. *)
Definition wp {A} (c : M A) (Q : outcome A -> state -> Prop) (s : state) : Prop :=
  Q (c s).1 (c s).2.

(** [c] leaves the observation [f] of the state as it was, however it
    ends. *)
Definition preserves {A X} (f : state -> X) (c : M A) : Prop :=
  forall s, f (c s).2 = f s.

(** The calls of [np.random.randint] among the events. *)
Definition is_randint (e : event) : bool :=
  match e with
  | EvRandint _ _ _ _ => true
  | _ => false
  end.

Definition randints (s : state) : list event := filter is_randint (trace s).

(** Events of a library call that are neither a clock reading, nor a
    dataframe aggregate, nor a print. *)
Definition internal (e : event) : Prop :=
  match e with
  | EvWarn _ _ | EvQuery _ _ => True
  | _ => False
  end.

(** The clock readings taken, and the objects printed, in order. *)
Definition readings (s : state) : list float :=
  omap (fun e => match e with EvTime t => Some t | _ => None end) (trace s).

Definition prints (s : state) : list pyval :=
  omap (fun e => match e with EvPrint v => Some v | _ => None end) (trace s).

(** The two attribute tables together. *)
Definition classes (s : state)
  : gmap string df_method * gmap string qc_method :=
  (DataFrame_attrs s, PandasQueryCompiler_attrs s).

End Notebook.

(** ** A small host to run the cells on

    A single-partition engine over exact pandas-style reductions on floats,
    a quadratic clock and a congruential generator.  It is used to run the
    cells on concrete states; no theorem about the notebook depends on
    it. *)
Module Toy.

Definition of_Z (z : Z) : float :=
  if decide (0 <= z) then PrimFloat.of_uint63 (Uint63.of_Z z)
  else PrimFloat.opp (PrimFloat.of_uint63 (Uint63.of_Z (- z))).

(** The integer part of a float, towards minus infinity for positive ones. *)
Definition floor_Z (x : float) : Z :=
  match FloatOps.Prim2SF x with
  | SpecFloat.S754_finite sign m e =>
      let v := Z.shiftl (Z.pos m) e in if sign then - v else v
  | _ => 0
  end.

(** Reading number [k] of the clock, in seconds: the gaps grow with [k]. *)
Definition clock (k : nat) : float :=
  PrimFloat.add (of_Z 1700000000)
    (PrimFloat.div (of_Z (Z.of_nat k * Z.of_nat k)) (of_Z 8)).

(** Rounding to [ndigits] decimals by way of the nearest integer. *)
Definition round (x : float) (ndigits : Z) : float :=
  let p := of_Z (10 ^ ndigits) in
  let big := of_Z (2 ^ 52) in
  PrimFloat.div (PrimFloat.sub (PrimFloat.add (PrimFloat.mul x p) big) big) p.

Definition pad4 (n : Z) : string :=
  let d := pretty n in
  match String.length d with
  | 1%nat => "000" +:+ d
  | 2%nat => "00" +:+ d
  | 3%nat => "0" +:+ d
  | _ => d
  end.

(** A non-negative float to four decimals. *)
Definition str (x : float) : string :=
  let n := floor_Z (PrimFloat.add (PrimFloat.mul x (of_Z 10000)) (PrimFloat.div (of_Z 1) (of_Z 2))) in
  pretty (n / 10000) +:+ "." +:+ pad4 (n mod 10000).

Definition draw (k : nat) (low high : Z) (rows cols : N) : ndarray :=
  {| nrows := rows; ncols := cols;
     cell i j :=
       low + (Z.of_nat k * 7919 + Z.of_N i * 31 + Z.of_N j * 17
              + Z.of_N i * Z.of_N j) mod (high - low) |}.

Definition fsum (xs : list float) : float := foldr PrimFloat.add (of_Z 0) xs.

Definition mean (xs : list float) : float :=
  PrimFloat.div (fsum xs) (of_Z (Z.of_nat (length xs))).

(** Mean absolute deviation. *)
Definition mad (xs : list float) : float :=
  let m := mean xs in
  mean ((fun x => PrimFloat.abs (PrimFloat.sub x m)) <$> xs).

(** Unbiased excess kurtosis, as pandas defines it; NaN under four values. *)
Definition kurtosis (xs : list float) : float :=
  let n := Z.of_nat (length xs) in
  if decide (n < 4) then PrimFloat.nan
  else
    let m := mean xs in
    let d := (fun x => PrimFloat.sub x m) <$> xs in
    let m2 := fsum ((fun x => PrimFloat.mul x x) <$> d) in
    let m4 := fsum ((fun x => PrimFloat.mul (PrimFloat.mul x x) (PrimFloat.mul x x)) <$> d) in
    let adj := PrimFloat.div (of_Z (3 * (n - 1) * (n - 1))) (of_Z ((n - 2) * (n - 3))) in
    let num := PrimFloat.mul (of_Z (n * (n + 1) * (n - 1))) m4 in
    let den := PrimFloat.mul (of_Z ((n - 2) * (n - 3))) (PrimFloat.mul m2 m2) in
    PrimFloat.sub (PrimFloat.div num den) adj.

Definition statistic (attr : string) : list float -> float :=
  if decide (attr = "mad") then mad
  else if decide (attr = "kurtosis") then kurtosis
  else fsum.

Definition upto (n : N) : list N := N.of_nat <$> seq 0 (N.to_nat n).

Definition column (a : ndarray) (j : N) : list float :=
  (fun i => of_Z (cell a i j)) <$> upto (nrows a).

Definition row (a : ndarray) (i : N) : list float :=
  (fun j => of_Z (cell a i j)) <$> upto (ncols a).

(** A reduction of a frame: along the rows of each column, or, with
    [axis=1], along the columns of each row. *)
Definition reduce (attr : string) (f : frame) (kw : keywords) : series :=
  if decide (kw !! "axis" = Some (AInt 1)) then
    {| index := (fun i => LInt (Z.of_N i)) <$> upto (nrows (values f));
       data := (fun i => statistic attr (row (values f) i)) <$> upto (nrows (values f)) |}
  else
    {| index := columns f;
       data := (fun j => statistic attr (column (values f) j)) <$> upto (ncols (values f)) |}.

(** The engine: one partition, holding a frame or a reduced result. *)
Inductive engine :=
| Whole (f : frame)
| Reduced (s : series).

Definition empty_frame : frame :=
  {| columns := []; values := {| nrows := 0; ncols := 0; cell _ _ := 0 |} |}.

Definition collect (q : engine) : frame :=
  match q with
  | Whole f => f
  | Reduced _ => empty_frame
  end.

Definition collect_series (q : engine) : series :=
  match q with
  | Whole _ => {| index := []; data := [] |}
  | Reduced s => s
  end.

Definition prefixed (prefix : string) (q : engine) : engine :=
  match q with
  | Whole f => Whole (pandas.add_prefix prefix f)
  | Reduced s => Reduced s
  end.

Definition run_reduction (f : pandas_function) (q : engine) (kw : keywords) : engine :=
  match f with
  | PandasDataFrame attr => Reduced (reduce attr (collect q) kw)
  end.

Definition host : Host :=
  {| wall_clock := clock;
     py_round := round;
     float_str := str;
     randint := draw;
     pandas_reduce := reduce;
     qc := engine;
     from_pandas := Whole;
     to_pandas := collect;
     series_from_pandas := Reduced;
     series_to_pandas := collect_series;
     qc_add_prefix := prefixed;
     reduction := run_reduction;
     qc_native := fun _ q _ => q |}.

#[local] Existing Instance host.

(** The table of the small fixture, and the dataframe over it. *)
Definition table : ndarray := draw 0 0 100 8 3.

Definition the_df : DataFrame := pd_add_prefix "col" (pd_DataFrame table).

(** Keywords of a call that names one parameter and one extra keyword. *)
Definition some_keywords : keywords :=
  {[ "skipna" := ABool true; "min_count" := AInt 7 ]}.

(** A fresh interpreter of the library version the notebook describes:
    [DataFrame.kurtosis] and [DataFrame.mad] default to pandas. *)
Definition fresh : state :=
  {| globals := ∅;
     DataFrame_attrs :=
       {[ "kurtosis" := DefaultToPandas "kurtosis";
          "mad" := DefaultToPandas "mad" ]};
     PandasQueryCompiler_attrs := ∅;
     ticks := 0; draws := 0; trace := [] |}.

(** Cells 4 and 5 on a table of 8 rows and 3 columns. *)
Definition small_fixture : M unit :=
  a ← np_random_randint 0 100 8 3;
  set_global "frame_data" (VArray a);;
  set_global "df" (VModinDataFrame (pd_add_prefix "col" (pd_DataFrame a)));;
  set_global "pandas_df"
    (VPandasDataFrame (pandas.add_prefix "col" (pandas.DataFrame a))).

(** The state after the small fixture. *)
Definition loaded : state := (small_fixture fresh).2.

(** Cell 17 as a learner may complete it after the walkthrough: [mad] is
    registered as a reduction and called through the query compiler. *)
Definition solved_17 : M unit :=
  t ← time_time;
  set_global "modin_mad_start" (VFloat t);;
  setattr_PandasQueryCompiler "mad_custom"
    (Reduction.register (PandasDataFrame "mad"));;
  df ← get_global "df";
  match df with
  | VModinDataFrame d =>
      r ← call_query_compiler (_query_compiler d) "mad_custom" {[ "axis" := AInt 0 ]};
      set_global "modin_mad" (VModinSeries (_reduce_dimension d r))
  | _ => raise (AttributeError "_query_compiler")
  end;;
  t ← time_time;
  set_global "modin_mad_end" (VFloat t).

(** The state the evaluation cell meets after a solved exercise. *)
Definition solved : state := (solved_17 loaded).2.

(** The state the evaluation cell meets after cell 17 as shipped. *)
Definition shipped : state := (cell_17 loaded).2.

(** The state after the registration cells (11 and 12). *)
Definition registered : state := (run [cell_11; cell_12] loaded).2.

(** The distributed series the solved exercise stores in [modin_mad]. *)
Definition solved_mad : Series :=
  _reduce_dimension the_df
    (reduction (PandasDataFrame "mad") (_query_compiler the_df)
       {[ "axis" := AInt 0 ]}).

End Toy.

(** * Reasoning about statements *)

Section Reasoning.

Context {H : Host}.

Lemma wp_bind {A B} (c : M A) (k : A -> M B) Q s :
  wp c (fun o s1 =>
          match o with
          | Returns a => wp (k a) Q s1
          | Raises e => Q (Raises e) s1
          end) s ->
  wp (c ≫= k) Q s.
Proof.
  unfold wp, mbind, M_bind, bind.
  destruct (c s) as [[a|e] s1]; simpl; auto.
Qed.

Lemma wp_ret {A} (a : A) Q s : Q (Returns a) s -> wp (mret a) Q s.
Proof. auto. Qed.

Lemma wp_raise {A} e (Q : outcome A -> state -> Prop) s :
  Q (Raises e) s -> wp (raise e) Q s.
Proof. auto. Qed.

Lemma wp_get_global name Q s :
  match globals s !! name with
  | Some v => Q (Returns v) s
  | None => Q (Raises (NameError name)) s
  end ->
  wp (get_global name) Q s.
Proof. unfold wp, get_global. destruct (globals s !! name); auto. Qed.

Lemma wp_set_global name v Q s :
  Q (Returns tt) (with_globals (<[name := v]> (globals s)) s) ->
  wp (set_global name v) Q s.
Proof. auto. Qed.

Lemma wp_emit e Q s : Q (Returns tt) (with_event e s) -> wp (emit e) Q s.
Proof. auto. Qed.

Lemma wp_time_time Q s :
  Q (Returns (wall_clock (ticks s)))
    (with_event (EvTime (wall_clock (ticks s))) (with_tick s)) ->
  wp time_time Q s.
Proof. auto. Qed.

Lemma wp_np_random_randint low high rows cols Q s :
  Q (Returns (randint (draws s) low high rows cols))
    (with_event (EvRandint low high rows cols) (with_draw s)) ->
  wp (np_random_randint low high rows cols) Q s.
Proof. auto. Qed.

Lemma wp_assert (cond : bool) msg Q s :
  (if cond then Q (Returns tt) s else Q (Raises (AssertionError msg)) s) ->
  wp (assert cond msg) Q s.
Proof. unfold wp, assert. destruct cond; auto. Qed.

Lemma wp_setattr_PandasQueryCompiler name m Q s :
  Q (Returns tt)
    (with_PandasQueryCompiler_attrs
       (<[name := m]> (PandasQueryCompiler_attrs s)) s) ->
  wp (setattr_PandasQueryCompiler name m) Q s.
Proof. auto. Qed.

Lemma wp_setattr_DataFrame name m Q s :
  Q (Returns tt) (with_DataFrame_attrs (<[name := m]> (DataFrame_attrs s)) s) ->
  wp (setattr_DataFrame name m) Q s.
Proof. auto. Qed.

Lemma wp_getattr_PandasQueryCompiler name Q s :
  match PandasQueryCompiler_attrs s !! name with
  | Some m => Q (Returns m) s
  | None => Q (Raises (AttributeError name)) s
  end ->
  wp (getattr_PandasQueryCompiler name) Q s.
Proof.
  unfold wp, getattr_PandasQueryCompiler.
  destruct (PandasQueryCompiler_attrs s !! name); auto.
Qed.

Lemma wp_getattr_DataFrame name Q s :
  match DataFrame_attrs s !! name with
  | Some m => Q (Returns m) s
  | None => Q (Raises (AttributeError name)) s
  end ->
  wp (getattr_DataFrame name) Q s.
Proof.
  unfold wp, getattr_DataFrame. destruct (DataFrame_attrs s !! name); auto.
Qed.

(** What [wp] says of a run that is known. *)
Lemma wp_elim {A} (c : M A) Q s : wp c Q s -> Q (c s).1 (c s).2.
Proof. auto. Qed.

Lemma wp_intro {A} (c : M A) (Q : outcome A -> state -> Prop) s :
  Q (c s).1 (c s).2 -> wp c Q s.
Proof. auto. Qed.

End Reasoning.

(** Projections of an updated state, and lookups in updated tables. *)
Ltac state_simpl :=
  cbn [globals DataFrame_attrs PandasQueryCompiler_attrs ticks draws trace
       with_globals with_DataFrame_attrs with_PandasQueryCompiler_attrs
       with_event with_tick with_draw] in *;
  repeat first
    [ rewrite lookup_insert_eq
    | rewrite lookup_insert_ne by discriminate ].

Ltac case_on x := first [ is_var x; destruct x | destruct x eqn:? ].

(** One step of symbolic execution. *)
Ltac wp_step :=
  lazymatch goal with
  | |- wp (mbind _ _) _ _ => apply wp_bind
  | |- wp (mret _) _ _ => apply wp_ret
  | |- wp (ret _) _ _ => apply wp_ret
  | |- wp (raise _) _ _ => apply wp_raise
  | |- wp (get_global _) _ _ => apply wp_get_global; state_simpl
  | |- wp (set_global _ _) _ _ => apply wp_set_global
  | |- wp (emit _) _ _ => apply wp_emit
  | |- wp (print _) _ _ => apply wp_emit
  | |- wp (warn _ _) _ _ => apply wp_emit
  | |- wp time_time _ _ => apply wp_time_time
  | |- wp (np_random_randint _ _ _ _) _ _ => apply wp_np_random_randint
  | |- wp (assert _ _) _ _ => apply wp_assert; cbn [isinstance_pd_Series]
  | |- wp (setattr_PandasQueryCompiler _ _) _ _ =>
      apply wp_setattr_PandasQueryCompiler
  | |- wp (setattr_DataFrame _ _) _ _ => apply wp_setattr_DataFrame
  | |- wp (getattr_PandasQueryCompiler _) _ _ =>
      apply wp_getattr_PandasQueryCompiler; state_simpl
  | |- wp (getattr_DataFrame _) _ _ => apply wp_getattr_DataFrame; state_simpl
  | |- wp (as_float _) _ _ => unfold as_float
  | |- wp (as_array _) _ _ => unfold as_array
  | |- wp (as_function _) _ _ => unfold as_function
  | |- wp (py_minus _ _) _ _ => unfold py_minus
  | |- wp (call_method _ _ _) _ _ => unfold call_method
  | |- wp (invoke _ _ _) _ _ => unfold invoke
  | |- wp (default_to_pandas _ _ _) _ _ => unfold default_to_pandas
  | |- wp (kurtosis_func _ _ _ _ _ _) _ _ => unfold kurtosis_func
  | |- wp (call_query_compiler _ _ _) _ _ => unfold call_query_compiler
  | |- wp (call_to_pandas _) _ _ => unfold call_to_pandas
  | |- wp (call_equals _ _) _ _ => unfold call_equals
  | |- wp (timed _) _ _ => unfold timed
  | |- wp (match ?x with _ => _ end) _ _ => case_on x
  | |- match ?x with _ => _ end => case_on x
  | |- if ?x then _ else _ => case_on x
  end.

Ltac wp_run := repeat (wp_step; cbn beta iota).

(** Use what is known of a lookup before splitting on it. *)
Ltac known_lookups :=
  repeat match goal with
         | E : ?l = Some _ |- context [match ?l with _ => _ end] => rewrite E
         | E : ?l = None |- context [match ?l with _ => _ end] => rewrite E
         end.

Ltac wp_go := repeat (known_lookups; wp_step; cbn beta iota).

(** * The evaluation cell (cell 18) *)

Section Evaluation.

Context {H : Host}.

Lemma same_elements_Forall2 xs ys :
  pandas.same_elements xs ys = true <->
  Forall2 (fun x y => pandas.same_element x y = true) xs ys.
Proof.
  revert ys. induction xs as [|x xs IH]; intros [|y ys]; simpl;
    try (split; [discriminate | inversion 1]).
  - split; [constructor | reflexivity].
  - rewrite andb_true_iff, IH. split.
    + intros [? ?]. by constructor.
    + by inversion 1.
Qed.

(** [equals] is an element-for-element comparison. *)
Lemma equals_elementwise a b :
  pandas.equals a b = true <->
  index a = index b /\
  Forall2 (fun x y => pandas.same_element x y = true) (data a) (data b).
Proof.
  unfold pandas.equals.
  rewrite andb_true_iff, bool_decide_eq_true, same_elements_Forall2. tauto.
Qed.

(** Everything a passing evaluation implies about the state it started
    from and the state it leaves. *)
Lemma evaluation_passes s :
  (cell_18 s).1 = Returns tt ->
  exists m f ms me,
    globals s !! "modin_mad" = Some (VModinSeries m) /\
    globals s !! "pandas_df" = Some (VPandasDataFrame f) /\
    globals s !! "modin_mad_start" = Some (VFloat ms) /\
    globals s !! "modin_mad_end" = Some (VFloat me) /\
    globals (cell_18 s).2 !! "pandas_mad_start"
      = Some (VFloat (wall_clock (ticks s))) /\
    globals (cell_18 s).2 !! "pandas_mad_end"
      = Some (VFloat (wall_clock (S (ticks s)))) /\
    globals (cell_18 s).2 !! "pandas_mad"
      = Some (VPandasSeries (pandas_reduce "mad" f ∅)) /\
    greater (minus (wall_clock (S (ticks s))) (wall_clock (ticks s)))
            (minus me ms) = true /\
    pandas.equals (_to_pandas m) (pandas_reduce "mad" f ∅) = true.
Proof.
  apply (wp_elim cell_18
           (fun o s' => o = Returns tt ->
              exists m f ms me,
                globals s !! "modin_mad" = Some (VModinSeries m) /\
                globals s !! "pandas_df" = Some (VPandasDataFrame f) /\
                globals s !! "modin_mad_start" = Some (VFloat ms) /\
                globals s !! "modin_mad_end" = Some (VFloat me) /\
                globals s' !! "pandas_mad_start"
                  = Some (VFloat (wall_clock (ticks s))) /\
                globals s' !! "pandas_mad_end"
                  = Some (VFloat (wall_clock (S (ticks s)))) /\
                globals s' !! "pandas_mad"
                  = Some (VPandasSeries (pandas_reduce "mad" f ∅)) /\
                greater (minus (wall_clock (S (ticks s))) (wall_clock (ticks s)))
                        (minus me ms) = true /\
                pandas.equals (_to_pandas m) (pandas_reduce "mad" f ∅) = true)).
  unfold cell_18. wp_go; try discriminate.
  intros _. simplify_eq. state_simpl.
  repeat eexists; first [eassumption | reflexivity].
Qed.

(** C1.  When the evaluation cell passes, [modin_mad] is a distributed
    series whose local form [modin_mad._to_pandas()] equals the baseline
    [pandas_df.mad()] under pandas' [equals]: the same labels and, element
    for element, the same values. *)
Theorem evaluation_requires_equal_result s :
  (cell_18 s).1 = Returns tt ->
  exists m f,
    globals s !! "modin_mad" = Some (VModinSeries m) /\
    globals s !! "pandas_df" = Some (VPandasDataFrame f) /\
    globals (cell_18 s).2 !! "pandas_mad"
      = Some (VPandasSeries (pandas_reduce "mad" f ∅)) /\
    pandas.equals (_to_pandas m) (pandas_reduce "mad" f ∅) = true /\
    index (_to_pandas m) = index (pandas_reduce "mad" f ∅) /\
    Forall2 (fun x y => pandas.same_element x y = true)
      (data (_to_pandas m)) (data (pandas_reduce "mad" f ∅)).
Proof.
  intros Hpass.
  destruct (evaluation_passes s Hpass)
    as (m & f & ms & me & Hm & Hf & _ & _ & _ & _ & Hb & _ & Heq).
  exists m, f. repeat split; try assumption;
    by apply equals_elementwise in Heq as [? ?].
Qed.

(** C4.  When the evaluation cell passes, [modin_mad] is an instance of
    [pd.Series], modin's distributed series, and no plain pandas object. *)
Theorem evaluation_requires_distributed_series s :
  (cell_18 s).1 = Returns tt ->
  exists v,
    globals s !! "modin_mad" = Some v /\
    isinstance_pd_Series v = true /\
    (exists m, v = VModinSeries m) /\
    (forall p, v <> VPandasSeries p) /\
    (forall f, v <> VPandasDataFrame f).
Proof.
  intros Hpass.
  destruct (evaluation_passes s Hpass) as (m & _ & _ & _ & Hm & _).
  exists (VModinSeries m). repeat split; eauto; discriminate.
Qed.

(** C5.  When the evaluation cell passes, the time measured around the
    learner's code, [modin_mad_end - modin_mad_start], is strictly less than
    the time measured around the pandas baseline,
    [pandas_mad_end - pandas_mad_start]; the latter two are the clock
    readings taken in the evaluation cell itself. *)
Theorem evaluation_requires_faster_than_pandas s :
  (cell_18 s).1 = Returns tt ->
  exists modin_mad_start modin_mad_end pandas_mad_start pandas_mad_end,
    globals s !! "modin_mad_start" = Some (VFloat modin_mad_start) /\
    globals s !! "modin_mad_end" = Some (VFloat modin_mad_end) /\
    globals (cell_18 s).2 !! "pandas_mad_start"
      = Some (VFloat pandas_mad_start) /\
    globals (cell_18 s).2 !! "pandas_mad_end" = Some (VFloat pandas_mad_end) /\
    pandas_mad_start = wall_clock (ticks s) /\
    pandas_mad_end = wall_clock (S (ticks s)) /\
    PrimFloat.ltb (PrimFloat.sub modin_mad_end modin_mad_start)
                  (PrimFloat.sub pandas_mad_end pandas_mad_start) = true.
Proof.
  intros Hpass.
  destruct (evaluation_passes s Hpass)
    as (_ & _ & ms & me & _ & _ & Hms & Hme & Hps & Hpe & _ & Hlt & _).
  exists ms, me, (wall_clock (ticks s)), (wall_clock (S (ticks s))).
  repeat split; assumption.
Qed.

End Evaluation.

(** * Registration (cells 11 and 12) and the wrapper [kurtosis_func] *)

Section Registration.

Context {H : Host}.

(** A run is the pair of its outcome and its final state. *)
Lemma wp_run_eq {A} (c : M A) s o s' :
  wp c (fun o1 s1 => o1 = o /\ s1 = s') s -> c s = (o, s').
Proof. unfold wp. destruct (c s) as [o1 s1]. simpl. by intros [-> ->]. Qed.

(** The named parameters win over [**kwargs]; other keywords pass through. *)
Lemma forwarded_lookup axis skipna level numeric_only (kwargs : keywords) :
  forwarded axis skipna level numeric_only kwargs !! "axis" = Some axis /\
  forwarded axis skipna level numeric_only kwargs !! "skipna" = Some skipna /\
  forwarded axis skipna level numeric_only kwargs !! "level" = Some level /\
  forwarded axis skipna level numeric_only kwargs !! "numeric_only"
    = Some numeric_only /\
  forall k, k ∉ ["axis"; "skipna"; "level"; "numeric_only"] ->
            forwarded axis skipna level numeric_only kwargs !! k = kwargs !! k.
Proof.
  unfold forwarded. repeat split.
  - by rewrite lookup_insert_eq.
  - rewrite lookup_insert_ne by discriminate. by rewrite lookup_insert_eq.
  - do 2 rewrite lookup_insert_ne by discriminate. by rewrite lookup_insert_eq.
  - do 3 rewrite lookup_insert_ne by discriminate. by rewrite lookup_insert_eq.
  - intros k Hk. rewrite !not_elem_of_cons in Hk.
    destruct Hk as (? & ? & ? & ? & _).
    by rewrite !lookup_insert_ne by congruence.
Qed.

(** The extra keywords of a call are its keywords but the four named ones. *)
Lemma extra_keywords_lookup (kw : keywords) k :
  k ∉ ["axis"; "skipna"; "level"; "numeric_only"] ->
  extra_keywords kw !! k = kw !! k.
Proof.
  intros Hk. rewrite !not_elem_of_cons in Hk.
  destruct Hk as (? & ? & ? & ? & _).
  unfold extra_keywords. by rewrite !lookup_delete_ne by congruence.
Qed.

(** [kurtosis_func] on its parameters: one query-compiler call, whose
    result goes through [_reduce_dimension]. *)
Lemma kurtosis_func_run self axis skipna level numeric_only kwargs m s :
  PandasQueryCompiler_attrs s !! "kurtosis_custom" = Some m ->
  kurtosis_func self axis skipna level numeric_only kwargs s =
    (Returns
       (VModinSeries
          (_reduce_dimension self
             (apply_qc_method m (_query_compiler self)
                (forwarded (if decide (axis = ANone) then AInt 0 else axis)
                   skipna level numeric_only kwargs)))),
     with_event
       (EvQuery "kurtosis_custom"
          (forwarded (if decide (axis = ANone) then AInt 0 else axis)
             skipna level numeric_only kwargs)) s).
Proof.
  intros Hm. apply wp_run_eq. wp_go. done.
Qed.

(** C6.  A call [df.kurtosis_custom(...)] of the registered wrapper with
    keywords [kw] makes one call of the query compiler's [kurtosis_custom]:
    with [axis=0] when [axis] is omitted or [None], with the given [axis]
    otherwise; with [skipna], [level] and [numeric_only] as given ([None]
    when omitted) and every other keyword as given.  What the query compiler
    returns comes back through [self._reduce_dimension]: a distributed
    series. *)
Theorem kurtosis_custom_forwards (self : DataFrame) (kw : keywords) m s :
  DataFrame_attrs s !! "kurtosis_custom" = Some Fn_kurtosis_func ->
  PandasQueryCompiler_attrs s !! "kurtosis_custom" = Some m ->
  exists sent : keywords,
    call_method (VModinDataFrame self) "kurtosis_custom" kw s =
      (Returns
         (VModinSeries
            (_reduce_dimension self
               (apply_qc_method m (_query_compiler self) sent))),
       with_event (EvQuery "kurtosis_custom" sent)
         (with_event (EvAggregate Modin "kurtosis_custom") s)) /\
    sent !! "axis" =
      Some (match kw !! "axis" with
            | None | Some ANone => AInt 0
            | Some axis => axis
            end) /\
    sent !! "skipna" = Some (default ANone (kw !! "skipna")) /\
    sent !! "level" = Some (default ANone (kw !! "level")) /\
    sent !! "numeric_only" = Some (default ANone (kw !! "numeric_only")) /\
    (forall k, k ∉ ["axis"; "skipna"; "level"; "numeric_only"] ->
               sent !! k = kw !! k) /\
    isinstance_pd_Series
      (VModinSeries
         (_reduce_dimension self
            (apply_qc_method m (_query_compiler self) sent))) = true.
Proof.
  intros Hdf Hqc.
  exists (forwarded
            (if decide (parameter "axis" kw = ANone) then AInt 0
             else parameter "axis" kw)
            (parameter "skipna" kw) (parameter "level" kw)
            (parameter "numeric_only" kw) (extra_keywords kw)).
  destruct (forwarded_lookup
              (if decide (parameter "axis" kw = ANone) then AInt 0
               else parameter "axis" kw)
              (parameter "skipna" kw) (parameter "level" kw)
              (parameter "numeric_only" kw) (extra_keywords kw))
    as (Ha & Hs & Hl & Hn & Hrest).
  repeat split; try assumption.
  - apply wp_run_eq. wp_go. done.
  - rewrite Ha. unfold parameter.
    destruct (kw !! "axis") as [[]|]; reflexivity.
  - intros k Hk. rewrite Hrest by exact Hk. by apply extra_keywords_lookup.
Qed.

(** The registration cells always succeed; this is the state they leave. *)
Lemma cell_11_run s :
  cell_11 s =
    (Returns tt,
     with_PandasQueryCompiler_attrs
       (<["kurtosis_custom" := Reduction.register (PandasDataFrame "kurtosis")]>
          (PandasQueryCompiler_attrs s)) s).
Proof. reflexivity. Qed.

Lemma cell_12_run s :
  cell_12 s =
    (Returns tt,
     with_DataFrame_attrs
       (<["kurtosis_custom" := Fn_kurtosis_func]> (DataFrame_attrs s))
       (with_globals
          (<["kurtosis_func" := VFunction Fn_kurtosis_func]> (globals s)) s)).
Proof. apply wp_run_eq. unfold cell_12. wp_go. done. Qed.

Lemma registration_run s :
  run [cell_11; cell_12] s = (Returns tt, (cell_12 (cell_11 s).2).2).
Proof.
  apply wp_run_eq. cbn [run]. wp_step. cbn beta iota.
  apply wp_intro. rewrite cell_11_run. cbn [fst snd].
  wp_step. cbn beta iota. apply wp_intro. rewrite cell_12_run. cbn [fst snd].
  wp_step. done.
Qed.

(** C3.  Cell 11 always succeeds and leaves the attribute [kurtosis_custom]
    of [PandasQueryCompiler] bound to [Reduction.register] applied to
    [pandas.DataFrame.kurtosis]; from then on [q.kurtosis_custom(...)] on a
    query compiler [q] finds the attribute and runs that reduction, and once
    cell 12 has run the dataframe's [kurtosis_custom] reaches it. *)
Theorem registration_binds_kurtosis_custom s :
  (cell_11 s).1 = Returns tt /\
  PandasQueryCompiler_attrs (cell_11 s).2 !! "kurtosis_custom"
    = Some (Reduction.register (PandasDataFrame "kurtosis")) /\
  (forall q kw,
     call_query_compiler q "kurtosis_custom" kw (cell_11 s).2 =
       (Returns (reduction (PandasDataFrame "kurtosis") q kw),
        with_event (EvQuery "kurtosis_custom" kw) (cell_11 s).2)) /\
  (forall d,
     (call_method (VModinDataFrame d) "kurtosis_custom" ∅
        (run [cell_11; cell_12] s).2).1 =
       Returns
         (VModinSeries
            (_reduce_dimension d
               (reduction (PandasDataFrame "kurtosis") (_query_compiler d)
                  (forwarded (AInt 0) ANone ANone ANone ∅))))).
Proof.
  rewrite registration_run, cell_12_run, cell_11_run. cbn [fst snd].
  repeat split.
  - state_simpl. reflexivity.
  - intros q kw. apply wp_run_eq. wp_go. done.
  - intros d.
    apply (wp_elim (call_method (VModinDataFrame d) "kurtosis_custom" ∅)
             (fun o _ => o = Returns _)).
    wp_go. done.
Qed.

End Registration.

(** * The timing cells (6, 7, 13 and 14) *)

Section Timing.

Context {H : Host}.

(** How a call on a modin dataframe can return. *)
Lemma call_method_modin_returns d attr kw s r :
  (call_method (VModinDataFrame d) attr kw s).1 = Returns r ->
  (exists a, DataFrame_attrs s !! attr = Some (DefaultToPandas a)) \/
  (DataFrame_attrs s !! attr = Some Fn_kurtosis_func /\
   exists m, PandasQueryCompiler_attrs s !! "kurtosis_custom" = Some m).
Proof.
  apply (wp_elim (call_method (VModinDataFrame d) attr kw)
           (fun o _ => o = Returns r ->
              (exists a, DataFrame_attrs s !! attr = Some (DefaultToPandas a)) \/
              (DataFrame_attrs s !! attr = Some Fn_kurtosis_func /\
               exists m, PandasQueryCompiler_attrs s !! "kurtosis_custom"
                         = Some m))).
  wp_go; try discriminate; intros _; eauto.
Qed.

Ltac timing_case lib inside :=
  exists lib, inside;
  split;
  [ apply (wp_elim _ (fun o _ => o = Returns tt));
    unfold cell_6, cell_7, cell_13, cell_14, timed; wp_go; known_lookups;
    reflexivity
  | split; [|repeat constructor];
    apply (wp_elim _ (fun _ s' => trace s' = _));
    unfold cell_6, cell_7, cell_13, cell_14, timed; wp_go; known_lookups;
    state_simpl; rewrite <- !app_assoc; simplify_eq; reflexivity ].

(** C8, amended.  A timing cell whose dataframe is bound and whose
    aggregate call returns ends normally after exactly these events: a clock
    reading; one dataframe aggregate, with whatever the library emits inside
    it (a warning, a query-compiler call); the print of the object that call
    returned; a second clock reading; the print of the message
    "<who> took <elapsed> seconds.", where <elapsed> is the difference of the
    two readings, rounded to four decimals in cells 6 and 7 and as it is in
    cells 13 and 14.  The first reading comes immediately before the
    aggregate call; the second comes after the print of the result. *)
Theorem timing_cells_shape (c : timing_cell) s obj r :
  globals s !! subject c = Some obj ->
  (call_method obj (aggregate c) ∅ s).1 = Returns r ->
  exists lib inside,
    (program c s).1 = Returns tt /\
    trace (program c s).2 =
      trace s ++
        [EvTime (wall_clock (ticks s)); EvAggregate lib (aggregate c)] ++
        inside ++
        [EvPrint r;
         EvTime (wall_clock (S (ticks s)));
         EvPrint
           (VStr (who c +:+ " took "
                  +:+ float_str
                        (if rounds c
                         then py_round
                                (PrimFloat.sub (wall_clock (S (ticks s)))
                                               (wall_clock (ticks s))) 4
                         else PrimFloat.sub (wall_clock (S (ticks s)))
                                            (wall_clock (ticks s)))
                  +:+ " seconds."))] /\
    Forall internal inside.
Proof.
  intros Hobj Hcall.
  destruct obj; try (destruct c; discriminate Hcall).
  - (* a pandas dataframe *)
    assert (r = VPandasSeries (pandas_reduce (aggregate c) f ∅)) as ->.
    { revert Hcall.
      apply (wp_elim (call_method (VPandasDataFrame f) (aggregate c) ∅)
               (fun o _ => o = Returns r -> r = _)).
      wp_go. congruence. }
    destruct c; cbn [program subject aggregate who rounds] in *;
      timing_case Pandas (@nil event).
  - (* a modin dataframe *)
    destruct (call_method_modin_returns _ _ _ _ _ Hcall)
      as [[a Ha]|[Hf [m Hm]]].
    + assert (r = VModinSeries
                    {| _series_query_compiler :=
                         series_from_pandas
                           (pandas_reduce a (to_pandas (_query_compiler d)) ∅) |})
        as ->.
      { revert Hcall.
        apply (wp_elim (call_method (VModinDataFrame d) (aggregate c) ∅)
                 (fun o _ => o = Returns r -> r = _)).
        wp_go; known_lookups. congruence. }
      destruct c; cbn [program subject aggregate who rounds] in *;
        timing_case Modin [EvWarn "UserWarning" (default_warning a)].
    + assert (r = VModinSeries
                    (_reduce_dimension d
                       (apply_qc_method m (_query_compiler d)
                          (forwarded (AInt 0) ANone ANone ANone ∅))))
        as ->.
      { revert Hcall.
        apply (wp_elim (call_method (VModinDataFrame d) (aggregate c) ∅)
                 (fun o _ => o = Returns r -> r = _)).
        wp_go; known_lookups. intros E. injection E as <-. reflexivity. }
      destruct c; cbn [program subject aggregate who rounds] in *;
        timing_case Modin
          [EvQuery "kurtosis_custom" (forwarded (AInt 0) ANone ANone ANone ∅)].
Qed.
End Timing.

(** * What registration leaves alone *)

Section Frame.

Context {H : Host}.

(** C9.  Cells 11 and 12 always succeed and change one attribute of each
    class, [kurtosis_custom]: every other attribute of [pd.DataFrame] and of
    [PandasQueryCompiler], [kurtosis] among them, is what it was.  So
    [df.kurtosis] resolves to what it resolved to before, and where that was
    the default-to-pandas implementation, [df.kurtosis()] after registration
    still warns and returns the pandas result. *)
Theorem registration_leaves_other_attributes s :
  (run [cell_11; cell_12] s).1 = Returns tt /\
  DataFrame_attrs (run [cell_11; cell_12] s).2 !! "kurtosis"
    = DataFrame_attrs s !! "kurtosis" /\
  (forall name, name <> "kurtosis_custom" ->
     DataFrame_attrs (run [cell_11; cell_12] s).2 !! name
       = DataFrame_attrs s !! name /\
     PandasQueryCompiler_attrs (run [cell_11; cell_12] s).2 !! name
       = PandasQueryCompiler_attrs s !! name) /\
  (getattr_DataFrame "kurtosis" (run [cell_11; cell_12] s).2).1
    = (getattr_DataFrame "kurtosis" s).1 /\
  (forall d kw,
     DataFrame_attrs s !! "kurtosis" = Some (DefaultToPandas "kurtosis") ->
     call_method (VModinDataFrame d) "kurtosis" kw (run [cell_11; cell_12] s).2 =
       (Returns
          (VModinSeries
             {| _series_query_compiler :=
                  series_from_pandas
                    (pandas_reduce "kurtosis" (to_pandas (_query_compiler d)) kw) |}),
        with_event (EvWarn "UserWarning" (default_warning "kurtosis"))
          (with_event (EvAggregate Modin "kurtosis")
             (run [cell_11; cell_12] s).2))).
Proof.
  rewrite registration_run, cell_12_run, cell_11_run. cbn [fst snd].
  split; [reflexivity|]. split; [state_simpl; reflexivity|].
  split; [|split].
  - intros name Hname. state_simpl.
    split; apply lookup_insert_ne; congruence.
  - unfold getattr_DataFrame. state_simpl.
    by destruct (DataFrame_attrs s !! "kurtosis").
  - intros d kw Hk. apply wp_run_eq. wp_go. done.
Qed.

End Frame.

(** * The fixture (cells 4 and 5) *)

Section Fixture.

Context {H : Host}.

Lemma run_cons c cs s :
  run (c :: cs) s =
    match c s with
    | (Returns _, s1) => run cs s1
    | (Raises e, s1) => (Raises e, s1)
    end.
Proof. reflexivity. Qed.

(** What every cell of a list leaves alone, a run of the list leaves alone. *)
Lemma preserves_run {X} (f : state -> X) cs :
  Forall (preserves f) cs -> preserves f (run cs).
Proof.
  induction 1 as [|c cs Hc _ IH]; intros s; [reflexivity|].
  rewrite run_cons. specialize (Hc s).
  destruct (c s) as [[[]|e] s1]; simpl in *; [|exact Hc].
  by rewrite IH.
Qed.

Lemma preserves_wp {A X} (f : state -> X) (c : M A) :
  (forall s, wp c (fun _ s' => f s' = f s) s) -> preserves f c.
Proof. intros Hc s. exact (Hc s). Qed.

(** No event of a library call or of a print is a call of [randint]. *)
Lemma randints_with_event e s :
  is_randint e = false -> randints (with_event e s) = randints s.
Proof.
  intros He. unfold randints. cbn [trace with_event].
  rewrite filter_app, filter_cons_False, filter_nil, app_nil_r; [done|].
  rewrite He. exact id.
Qed.

Lemma randints_with_globals g s : randints (with_globals g s) = randints s.
Proof. reflexivity. Qed.

Lemma randints_with_tick s : randints (with_tick s) = randints s.
Proof. reflexivity. Qed.

Lemma randints_with_DataFrame_attrs t s :
  randints (with_DataFrame_attrs t s) = randints s.
Proof. reflexivity. Qed.

Lemma randints_with_PandasQueryCompiler_attrs t s :
  randints (with_PandasQueryCompiler_attrs t s) = randints s.
Proof. reflexivity. Qed.

End Fixture.

Ltac randints_simpl :=
  repeat first
    [ rewrite randints_with_globals
    | rewrite randints_with_tick
    | rewrite randints_with_DataFrame_attrs
    | rewrite randints_with_PandasQueryCompiler_attrs
    | rewrite randints_with_event by reflexivity ].

Section FixtureFacts.

Context {H : Host}.

(** The cells below cell 4 never draw. *)
Lemma quiet_cells :
  Forall (preserves randints) (cell_5 :: later_cells).
Proof.
  repeat constructor; apply preserves_wp; intros s;
    unfold cell_5, cell_6, cell_7, cell_10, cell_11, cell_12, cell_13,
      cell_14, cell_17, cell_18;
    wp_go; randints_simpl; reflexivity.
Qed.

(** The cells below cell 5 rebind none of the three inputs. *)
Lemma later_cells_keep_inputs : Forall (preserves inputs) later_cells.
Proof.
  repeat constructor; apply preserves_wp; intros s;
    unfold cell_6, cell_7, cell_10, cell_11, cell_12, cell_13,
      cell_14, cell_17, cell_18;
    wp_go; unfold inputs; state_simpl; congruence.
Qed.

End FixtureFacts.

Section FixtureClaims.

Context {H : Host}.

(** Cells 4 and 5 always succeed; this is the state they leave. *)
Lemma fixture_run s :
  run [cell_4; cell_5] s =
    (Returns tt,
     with_globals
       (<["pandas_df" :=
            VPandasDataFrame (pandas.add_prefix "col" (pandas.DataFrame (drawn s)))]>
          (<["df" :=
               VModinDataFrame (pd_add_prefix "col" (pd_DataFrame (drawn s)))]>
             (<["frame_data" := VArray (drawn s)]> (globals s))))
       (with_event (EvRandint 0 100 (2 ^ 18) (2 ^ 8)) (with_draw s))).
Proof.
  apply wp_run_eq. cbn [run]. unfold cell_4, cell_5. wp_go. done.
Qed.

Lemma prefix_append p rest : String.prefix p (p +:+ rest) = true.
Proof.
  induction p as [|a p IH]; simpl; [by destruct rest|].
  by destruct (ascii_dec a a).
Qed.

(** After [add_prefix], every column label starts with the prefix. *)
Lemma add_prefix_columns p f :
  Forall (fun l => pandas.has_prefix p l = true) (columns (pandas.add_prefix p f)).
Proof.
  unfold pandas.add_prefix. cbn [columns].
  apply Forall_fmap, Forall_true. intros l. apply prefix_append.
Qed.

Lemma add_prefix_length p f :
  length (columns (pandas.add_prefix p f)) = length (columns f).
Proof. unfold pandas.add_prefix. cbn [columns]. apply length_fmap. Qed.

Lemma DataFrame_columns_length a :
  length (columns (pandas.DataFrame a)) = N.to_nat (ncols a).
Proof.
  unfold pandas.DataFrame. cbn [columns].
  rewrite length_fmap, length_seqZ. lia.
Qed.

(** C7.  Over a run of the whole notebook [np.random.randint] is called
    once, by cell 4, as [randint(0, 100, size=(2**18, 2**8))]; the array it
    returns, bound to [frame_data], has 2**18 rows and 2**8 columns of
    integers in [[0, 100)]; and each of the 2**8 column labels of [df] and of
    [pandas_df] starts with "col".  (That the draw is uniform is numpy's
    affair and is not expressed.) *)
Theorem fixture_drawn_once_and_prefixed `{!HostLaws H} s :
  randints (run notebook s).2
    = randints s ++ [EvRandint 0 100 (2 ^ 18) (2 ^ 8)] /\
  exists a d f,
    globals (run [cell_4; cell_5] s).2 !! "frame_data" = Some (VArray a) /\
    globals (run [cell_4; cell_5] s).2 !! "df" = Some (VModinDataFrame d) /\
    globals (run [cell_4; cell_5] s).2 !! "pandas_df"
      = Some (VPandasDataFrame f) /\
    a = randint (draws s) 0 100 (2 ^ 18) (2 ^ 8) /\
    nrows a = (2 ^ 18)%N /\ ncols a = (2 ^ 8)%N /\
    (forall i j, (i < 2 ^ 18)%N -> (j < 2 ^ 8)%N -> 0 <= cell a i j < 100) /\
    length (columns f) = 256%nat /\
    length (columns (to_pandas (_query_compiler d))) = 256%nat /\
    Forall (fun l => pandas.has_prefix "col" l = true) (columns f) /\
    Forall (fun l => pandas.has_prefix "col" l = true)
      (columns (to_pandas (_query_compiler d))).
Proof.
  split.
  - change notebook with (cell_4 :: cell_5 :: later_cells).
    rewrite run_cons.
    assert (cell_4 s =
              (Returns tt,
               with_globals
                 (<["df" := VModinDataFrame
                              (pd_add_prefix "col" (pd_DataFrame (drawn s)))]>
                    (<["frame_data" := VArray (drawn s)]> (globals s)))
                 (with_event (EvRandint 0 100 (2 ^ 18) (2 ^ 8)) (with_draw s))))
      as ->.
    { apply wp_run_eq. unfold cell_4. wp_go. done. }
    rewrite (preserves_run randints _ quiet_cells).
    unfold randints. cbn [trace with_globals with_event with_draw].
    rewrite filter_app. f_equal.
  - rewrite fixture_run. cbn [snd]. state_simpl.
    destruct (randint_shape (draws s) 0 100 (2 ^ 18)%N (2 ^ 8)%N) as [Hr Hc].
    exists (drawn s), (pd_add_prefix "col" (pd_DataFrame (drawn s))),
      (pandas.add_prefix "col" (pandas.DataFrame (drawn s))).
    assert (to_pandas
              (_query_compiler (pd_add_prefix "col" (pd_DataFrame (drawn s))))
            = pandas.add_prefix "col" (pandas.DataFrame (drawn s))) as ->.
    { unfold pd_add_prefix, pd_DataFrame. cbn [_query_compiler].
      by rewrite to_pandas_add_prefix, to_pandas_from_pandas. }
    repeat split; try reflexivity; try assumption.
    + by apply randint_range.
    + by apply randint_range.
    + rewrite add_prefix_length, DataFrame_columns_length.
      unfold drawn. by rewrite Hc.
    + rewrite add_prefix_length, DataFrame_columns_length.
      unfold drawn. by rewrite Hc.
    + apply add_prefix_columns.
    + apply add_prefix_columns.
Qed.

(** C10.  Cells 4 and 5 build [df] and [pandas_df] from the one array
    [frame_data], each with the prefix "col", and collecting [df] gives
    exactly [pandas_df].  No cell below them rebinds or changes
    [frame_data], [df] or [pandas_df]: whichever of those cells run, in
    whatever order and however they end, the three names hold what cells 4
    and 5 left in them, so every comparison of the notebook reads the same
    data on both sides. *)
Theorem same_input_data `{!HostLaws H} s (cells : list (M unit)) :
  Forall (fun c => c ∈ later_cells) cells ->
  exists a,
    (run [cell_4; cell_5] s).1 = Returns tt /\
    inputs (run [cell_4; cell_5] s).2 =
      (Some (VArray a),
       Some (VModinDataFrame (pd_add_prefix "col" (pd_DataFrame a))),
       Some (VPandasDataFrame (pandas.add_prefix "col" (pandas.DataFrame a)))) /\
    to_pandas (_query_compiler (pd_add_prefix "col" (pd_DataFrame a)))
      = pandas.add_prefix "col" (pandas.DataFrame a) /\
    inputs (run cells (run [cell_4; cell_5] s).2).2
      = inputs (run [cell_4; cell_5] s).2.
Proof.
  intros Hcells. exists (drawn s). rewrite fixture_run. cbn [fst snd].
  split; [reflexivity|]. split; [|split].
  - unfold inputs. by state_simpl.
  - unfold pd_add_prefix, pd_DataFrame. cbn [_query_compiler].
    by rewrite to_pandas_add_prefix, to_pandas_from_pandas.
  - apply preserves_run.
    eapply Forall_impl; [exact Hcells|].
    intros c Hc. cbn beta in Hc.
    by apply (proj1 (Forall_forall _ _) later_cells_keep_inputs).
Qed.

End FixtureClaims.

(** * Warnings and assertions *)

Section Errors.

Context {H : Host}.

(** The fixture cells, the exercise cell as shipped and the evaluation
    cell, run in this order from any state, stop at the first assertion of
    the evaluation: cell 17 leaves [modin_mad = ...]. *)
Lemma shipped_exercise_raises s :
  (run [cell_4; cell_5; cell_17; cell_18] s).1
    = Raises (AssertionError not_distributed).
Proof.
  apply (wp_elim (run [cell_4; cell_5; cell_17; cell_18])
           (fun o _ => o = Raises (AssertionError not_distributed))).
  cbn [run]. unfold cell_4, cell_5, cell_17, cell_18.
  wp_go. reflexivity.
Qed.

(** Cells 4, 5 and 7 in this order: the events, from any state. *)
Lemma pandas_timing_trace s :
  trace (run [cell_4; cell_5; cell_7] s).2 =
    trace s ++
      [EvRandint 0 100 (2 ^ 18) (2 ^ 8);
       EvTime (wall_clock (ticks s));
       EvAggregate Pandas "kurtosis";
       EvPrint
         (VPandasSeries
            (pandas_reduce "kurtosis"
               (pandas.add_prefix "col" (pandas.DataFrame (drawn s))) ∅));
       EvTime (wall_clock (S (ticks s)));
       EvPrint
         (VStr ("pandas kurtosis took "
                +:+ float_str
                      (py_round
                         (PrimFloat.sub (wall_clock (S (ticks s)))
                                        (wall_clock (ticks s))) 4)
                +:+ " seconds."))].
Proof.
  apply (wp_elim (run [cell_4; cell_5; cell_7]) (fun _ s' => trace s' = _)).
  cbn [run]. unfold cell_4, cell_5, cell_7. wp_go. state_simpl.
  rewrite <- !app_assoc. reflexivity.
Qed.

(** C2, amended.  A call [df.<attr>(...)] of an aggregate that defaults to
    pandas raises nothing: it emits one [UserWarning],
    "`DataFrame.<attr>` defaulting to pandas implementation.", and returns
    the result of the pandas implementation on the collected frame, as a
    distributed series.  The warning is not the only error-like
    behaviour: the evaluation cell grades by assertion.  When [pandas_df]
    is a pandas dataframe, [modin_mad] is bound to any object and
    [modin_mad_start] and [modin_mad_end] are floats, it ends normally if
    all three of its checks hold, and otherwise in an [AssertionError] with
    the message of the first check that fails. *)
Theorem fallback_warns_and_grading_asserts
    s attr d kw s18 v f modin_mad_start modin_mad_end :
  DataFrame_attrs s !! attr = Some (DefaultToPandas attr) ->
  globals s18 !! "pandas_df" = Some (VPandasDataFrame f) ->
  globals s18 !! "modin_mad" = Some v ->
  globals s18 !! "modin_mad_start" = Some (VFloat modin_mad_start) ->
  globals s18 !! "modin_mad_end" = Some (VFloat modin_mad_end) ->
  call_method (VModinDataFrame d) attr kw s =
    (Returns
       (VModinSeries
          {| _series_query_compiler :=
               series_from_pandas
                 (pandas_reduce attr (to_pandas (_query_compiler d)) kw) |}),
     with_event
       (EvWarn "UserWarning"
          ("`DataFrame." +:+ attr +:+ "` defaulting to pandas implementation."))
       (with_event (EvAggregate Modin attr) s)) /\
  (cell_18 s18).1 =
    match v with
    | VModinSeries m =>
        if greater
             (minus (wall_clock (S (ticks s18))) (wall_clock (ticks s18)))
             (minus modin_mad_end modin_mad_start)
        then
          if pandas.equals (_to_pandas m) (pandas_reduce "mad" f ∅)
          then Returns tt
          else Raises (AssertionError no_match)
        else Raises (AssertionError too_slow)
    | _ => Raises (AssertionError not_distributed)
    end.
Proof.
  intros Hattr Hf Hv Hms Hme. split.
  - apply wp_run_eq. wp_go. done.
  - apply (wp_elim cell_18 (fun o _ => o = _)).
    unfold cell_18. destruct v; wp_go; simplify_eq; reflexivity.
Qed.

End Errors.

(** * Further properties of the cells *)

Section Order.

Context {H : Host}.

(** The evaluation cell binds three names, [pandas_mad_start], [pandas_mad]
    and [pandas_mad_end], and nothing else: however it ends, every other
    name of the notebook (the learner's [modin_mad] and its two readings
    among them) and both classes are as they were. *)
Theorem evaluation_binds_only_its_names s name :
  name ∉ ["pandas_mad_start"; "pandas_mad"; "pandas_mad_end"] ->
  globals (cell_18 s).2 !! name = globals s !! name /\
  classes (cell_18 s).2 = classes s.
Proof.
  intros Hname. rewrite !not_elem_of_cons in Hname.
  destruct Hname as (? & ? & ? & _).
  apply (wp_elim cell_18
           (fun _ s' => globals s' !! name = globals s !! name /\
                        classes s' = classes s)).
  unfold cell_18. wp_go; state_simpl;
    (split; [by rewrite ?lookup_insert_ne by congruence | reflexivity]).
Qed.

(** Only the registration cells touch the classes: every other cell leaves
    the attributes of [pd.DataFrame] and of [PandasQueryCompiler] as they
    were, however it ends; cell 11 leaves [pd.DataFrame] alone and cell 12
    leaves [PandasQueryCompiler] alone. *)
Theorem only_registration_changes_classes :
  Forall (preserves classes)
    [cell_4; cell_5; cell_6; cell_7; cell_10; cell_13; cell_14; cell_17;
     cell_18] /\
  preserves DataFrame_attrs cell_11 /\
  preserves PandasQueryCompiler_attrs cell_12.
Proof.
  split; [|split].
  - repeat constructor; apply preserves_wp; intros s;
      unfold cell_4, cell_5, cell_6, cell_7, cell_10, cell_13, cell_14,
        cell_17, cell_18;
      wp_go; reflexivity.
  - intros s. by rewrite cell_11_run.
  - intros s. by rewrite cell_12_run.
Qed.

(** The two registration cells can be run in either order: the state they
    leave is the same. *)
Theorem registration_cells_commute s :
  run [cell_12; cell_11] s = run [cell_11; cell_12] s.
Proof.
  rewrite registration_run, cell_12_run, cell_11_run. cbn [fst snd].
  apply wp_run_eq. cbn [run]. unfold cell_11, cell_12. wp_go. done.
Qed.

(** Running the registration cells a second time changes nothing. *)
Theorem registration_idempotent s :
  run [cell_11; cell_12; cell_11; cell_12] s = run [cell_11; cell_12] s.
Proof.
  rewrite registration_run, cell_12_run, cell_11_run. cbn [fst snd].
  apply wp_run_eq. cbn [run]. unfold cell_11, cell_12. wp_go.
  split; [reflexivity|].
  unfold with_DataFrame_attrs, with_PandasQueryCompiler_attrs, with_globals.
  cbn [globals DataFrame_attrs PandasQueryCompiler_attrs ticks draws trace].
  by rewrite !insert_insert_eq.
Qed.

(** [df.kurtosis_custom()] needs both registrations.  Before cell 12 the
    lookup on the dataframe fails, with or without cell 11; after cell 12
    alone the wrapper is found and called, and fails on the query compiler.
    Either way cell 14 ends in [AttributeError] after its first clock reading
    and prints nothing. *)
Theorem custom_call_needs_both_registrations s d :
  globals s !! "df" = Some (VModinDataFrame d) ->
  DataFrame_attrs s !! "kurtosis_custom" = None ->
  PandasQueryCompiler_attrs s !! "kurtosis_custom" = None ->
  (cell_14 s).1 = Raises (AttributeError "kurtosis_custom") /\
  trace (cell_14 s).2 = trace s ++ [EvTime (wall_clock (ticks s))] /\
  (cell_14 (cell_11 s).2).1 = Raises (AttributeError "kurtosis_custom") /\
  trace (cell_14 (cell_11 s).2).2 = trace s ++ [EvTime (wall_clock (ticks s))] /\
  (cell_14 (cell_12 s).2).1 = Raises (AttributeError "kurtosis_custom") /\
  trace (cell_14 (cell_12 s).2).2 =
    trace s ++ [EvTime (wall_clock (ticks s));
                EvAggregate Modin "kurtosis_custom"].
Proof.
  intros Hdf Hd Hq. rewrite cell_11_run, cell_12_run. cbn [snd].
  repeat split.
  - apply (wp_elim cell_14 (fun o _ => o = _)). unfold cell_14.
    wp_go; known_lookups. reflexivity.
  - apply (wp_elim cell_14 (fun _ s' => trace s' = _)). unfold cell_14.
    wp_go; known_lookups. reflexivity.
  - apply (wp_elim cell_14 (fun o _ => o = _)). unfold cell_14.
    wp_go; known_lookups. reflexivity.
  - apply (wp_elim cell_14 (fun _ s' => trace s' = _)). unfold cell_14.
    wp_go; known_lookups. reflexivity.
  - apply (wp_elim cell_14 (fun o _ => o = _)). unfold cell_14.
    wp_go; known_lookups. reflexivity.
  - apply (wp_elim cell_14 (fun _ s' => trace s' = _)). unfold cell_14.
    wp_go; known_lookups. state_simpl. by rewrite <- app_assoc.
Qed.


(** Run without the exercise cell, the evaluation computes the pandas
    baseline and then ends in [NameError] on [modin_mad]. *)
Theorem evaluation_without_exercise s f :
  globals s !! "pandas_df" = Some (VPandasDataFrame f) ->
  globals s !! "modin_mad" = None ->
  (cell_18 s).1 = Raises (NameError "modin_mad").
Proof.
  intros Hf Hm.
  apply (wp_elim cell_18 (fun o _ => o = _)). unfold cell_18.
  wp_go; known_lookups. reflexivity.
Qed.

(** With [pandas_df] a pandas dataframe, the evaluation cell, however it
    ends, has taken exactly two clock readings, has printed nothing, and has
    bound the baseline and the two readings. *)
Theorem evaluation_reads_twice_and_prints_nothing s f :
  globals s !! "pandas_df" = Some (VPandasDataFrame f) ->
  readings (cell_18 s).2
    = readings s ++ [wall_clock (ticks s); wall_clock (S (ticks s))] /\
  prints (cell_18 s).2 = prints s /\
  globals (cell_18 s).2 !! "pandas_mad_start"
    = Some (VFloat (wall_clock (ticks s))) /\
  globals (cell_18 s).2 !! "pandas_mad"
    = Some (VPandasSeries (pandas_reduce "mad" f ∅)) /\
  globals (cell_18 s).2 !! "pandas_mad_end"
    = Some (VFloat (wall_clock (S (ticks s)))).
Proof.
  intros Hf.
  apply (wp_elim cell_18
           (fun _ s' =>
              readings s'
                = readings s ++ [wall_clock (ticks s); wall_clock (S (ticks s))] /\
              prints s' = prints s /\
              globals s' !! "pandas_mad_start"
                = Some (VFloat (wall_clock (ticks s))) /\
              globals s' !! "pandas_mad"
                = Some (VPandasSeries (pandas_reduce "mad" f ∅)) /\
              globals s' !! "pandas_mad_end"
                = Some (VFloat (wall_clock (S (ticks s)))))).
  unfold cell_18. wp_go; known_lookups; unfold readings, prints; state_simpl;
    rewrite !omap_app; cbn [omap list_omap]; rewrite ?app_nil_r, <- ?app_assoc;
    done.
Qed.
(** Running cell 4 again draws a new array and rebuilds [df] from it, but
    leaves [pandas_df] over the old one: the two dataframes then hold
    different draws, until cell 5 is run again. *)
Theorem rerunning_cell_4_separates_inputs s :
  inputs (run [cell_4; cell_5; cell_4] s).2 =
    (Some (VArray (randint (S (draws s)) 0 100 (2 ^ 18) (2 ^ 8))),
     Some (VModinDataFrame
             (pd_add_prefix "col"
                (pd_DataFrame (randint (S (draws s)) 0 100 (2 ^ 18) (2 ^ 8))))),
     Some (VPandasDataFrame
             (pandas.add_prefix "col"
                (pandas.DataFrame (randint (draws s) 0 100 (2 ^ 18) (2 ^ 8)))))) /\
  inputs (run [cell_4; cell_5; cell_4; cell_5] s).2 =
    (Some (VArray (randint (S (draws s)) 0 100 (2 ^ 18) (2 ^ 8))),
     Some (VModinDataFrame
             (pd_add_prefix "col"
                (pd_DataFrame (randint (S (draws s)) 0 100 (2 ^ 18) (2 ^ 8))))),
     Some (VPandasDataFrame
             (pandas.add_prefix "col"
                (pandas.DataFrame
                   (randint (S (draws s)) 0 100 (2 ^ 18) (2 ^ 8)))))).
Proof.
  split.
  - apply (wp_elim (run [cell_4; cell_5; cell_4]) (fun _ s' => inputs s' = _)).
    cbn [run]. unfold cell_4, cell_5. wp_go. unfold inputs. by state_simpl.
  - apply (wp_elim (run [cell_4; cell_5; cell_4; cell_5])
             (fun _ s' => inputs s' = _)).
    cbn [run]. unfold cell_4, cell_5. wp_go. unfold inputs. by state_simpl.
Qed.

Lemma same_element_refl x : pandas.same_element x x = true.
Proof.
  unfold pandas.same_element, PrimFloat.is_nan.
  by destruct (PrimFloat.eqb x x).
Qed.

Lemma equals_refl a : pandas.equals a a = true.
Proof.
  apply equals_elementwise. split; [reflexivity|].
  apply Forall2_same_length_lookup. split; [reflexivity|].
  intros i x y Hx Hy. simplify_eq. apply same_element_refl.
Qed.

(** A result that materializes to exactly the baseline series, NaN entries
    included, is judged on time alone: the evaluation passes when the
    learner's time is less than pandas', and otherwise fails with the "too
    slow" message, never with "did not match". *)
Theorem exact_result_is_judged_on_time s m f modin_mad_start modin_mad_end :
  globals s !! "pandas_df" = Some (VPandasDataFrame f) ->
  globals s !! "modin_mad" = Some (VModinSeries m) ->
  globals s !! "modin_mad_start" = Some (VFloat modin_mad_start) ->
  globals s !! "modin_mad_end" = Some (VFloat modin_mad_end) ->
  _to_pandas m = pandas_reduce "mad" f ∅ ->
  (cell_18 s).1 =
    if greater (minus (wall_clock (S (ticks s))) (wall_clock (ticks s)))
               (minus modin_mad_end modin_mad_start)
    then Returns tt
    else Raises (AssertionError too_slow).
Proof.
  intros Hf Hm Hms Hme Hsame.
  apply (wp_elim cell_18 (fun o _ => o = _)). unfold cell_18.
  wp_go; simplify_eq; try reflexivity.
  match goal with
  | E : pandas.equals _ _ = false |- _ =>
      rewrite Hsame, equals_refl in E; discriminate E
  end.
Qed.

End Order.

(** * The small host: its laws, and the theorems at work on it *)

Lemma toy_laws : HostLaws Toy.host.
Proof.
  split.
  - intros. split; reflexivity.
  - intros k low high rows cols i j Hlt _ _. cbn.
    pose proof (Z.mod_pos_bound
                  (Z.of_nat k * 7919 + Z.of_N i * 31 + Z.of_N j * 17
                   + Z.of_N i * Z.of_N j) (high - low)).
    lia.
  - reflexivity.
  - intros prefix [f|r]; reflexivity.
Qed.

#[local] Existing Instance Toy.host.

(** The solved exercise passes the evaluation; the shipped one does not. *)
Example solved_passes : (cell_18 Toy.solved).1 = Returns tt.
Proof. vm_compute. reflexivity. Qed.

Example shipped_fails :
  (cell_18 Toy.shipped).1 = Raises (AssertionError not_distributed).
Proof. vm_compute. reflexivity. Qed.

(** The theorems about a passing evaluation, at the solved exercise. *)
Lemma evaluation_requires_equal_result_witness :
  (cell_18 Toy.solved).1 = Returns tt /\
  exists m f,
    globals Toy.solved !! "modin_mad" = Some (VModinSeries m) /\
    globals Toy.solved !! "pandas_df" = Some (VPandasDataFrame f) /\
    pandas.equals (_to_pandas m) (pandas_reduce "mad" f ∅) = true.
Proof.
  split; [vm_compute; reflexivity|].
  destruct (evaluation_requires_equal_result Toy.solved)
    as (m & f & Hm & Hf & _ & Heq & _); [vm_compute; reflexivity|].
  exists m, f. exact (conj Hm (conj Hf Heq)).
Defined.

Lemma evaluation_requires_distributed_series_witness :
  (cell_18 Toy.solved).1 = Returns tt /\
  exists v,
    globals Toy.solved !! "modin_mad" = Some v /\
    isinstance_pd_Series v = true.
Proof.
  split; [vm_compute; reflexivity|].
  destruct (evaluation_requires_distributed_series Toy.solved)
    as (v & Hv & Hi & _); [vm_compute; reflexivity|].
  exists v. exact (conj Hv Hi).
Defined.

Lemma evaluation_requires_faster_than_pandas_witness :
  (cell_18 Toy.solved).1 = Returns tt /\
  exists modin_mad_start modin_mad_end pandas_mad_start pandas_mad_end,
    globals Toy.solved !! "modin_mad_start" = Some (VFloat modin_mad_start) /\
    globals Toy.solved !! "modin_mad_end" = Some (VFloat modin_mad_end) /\
    globals (cell_18 Toy.solved).2 !! "pandas_mad_start"
      = Some (VFloat pandas_mad_start) /\
    globals (cell_18 Toy.solved).2 !! "pandas_mad_end"
      = Some (VFloat pandas_mad_end) /\
    PrimFloat.ltb (PrimFloat.sub modin_mad_end modin_mad_start)
                  (PrimFloat.sub pandas_mad_end pandas_mad_start) = true.
Proof.
  split; [vm_compute; reflexivity|].
  destruct (evaluation_requires_faster_than_pandas Toy.solved)
    as (ms & me & ps & pe & Hms & Hme & Hps & Hpe & _ & _ & Hlt);
    [vm_compute; reflexivity|].
  exists ms, me, ps, pe. exact (conj Hms (conj Hme (conj Hps (conj Hpe Hlt)))).
Defined.

(** A call [df.kurtosis_custom(skipna=True, min_count=7)] after the
    registration cells: [axis] is sent as 0, the rest as given. *)
Lemma kurtosis_custom_forwards_witness :
  DataFrame_attrs Toy.registered !! "kurtosis_custom" = Some Fn_kurtosis_func /\
  PandasQueryCompiler_attrs Toy.registered !! "kurtosis_custom"
    = Some (Reduction.register (PandasDataFrame "kurtosis")) /\
  exists sent : keywords,
    sent !! "axis" = Some (AInt 0) /\
    sent !! "skipna" = Some (ABool true) /\
    sent !! "level" = Some ANone /\
    sent !! "min_count" = Some (AInt 7).
Proof.
  split; [vm_compute; reflexivity|]. split; [vm_compute; reflexivity|].
  destruct (kurtosis_custom_forwards Toy.the_df Toy.some_keywords
              (Reduction.register (PandasDataFrame "kurtosis")) Toy.registered)
    as (sent & _ & Ha & Hs & Hl & _ & Hrest & _);
    [vm_compute; reflexivity | vm_compute; reflexivity |].
  exists sent. split; [exact Ha|]. split; [exact Hs|]. split; [exact Hl|].
  rewrite Hrest; [vm_compute; reflexivity|].
  rewrite !not_elem_of_cons. repeat split; try discriminate.
  apply not_elem_of_nil.
Defined.

(** Cell 14 after the registration cells. *)
Lemma timing_cells_shape_witness :
  globals Toy.registered !! subject Cell14
    = Some (VModinDataFrame Toy.the_df) /\
  (call_method (VModinDataFrame Toy.the_df) (aggregate Cell14) ∅
     Toy.registered).1 =
    Returns
      (VModinSeries
         (_reduce_dimension Toy.the_df
            (reduction (PandasDataFrame "kurtosis")
               (_query_compiler Toy.the_df)
               (forwarded (AInt 0) ANone ANone ANone ∅)))) /\
  (program Cell14 Toy.registered).1 = Returns tt.
Proof.
  split; [reflexivity|]. split; [reflexivity|].
  destruct (timing_cells_shape Cell14 Toy.registered
              (VModinDataFrame Toy.the_df)
              (VModinSeries
                 (_reduce_dimension Toy.the_df
                    (reduction (PandasDataFrame "kurtosis")
                       (_query_compiler Toy.the_df)
                       (forwarded (AInt 0) ANone ANone ANone ∅))))
              eq_refl eq_refl)
    as (lib & inside & Hret & _).
  exact Hret.
Defined.

(** C8, counterexample.  In cell 7, run after cells 4 and 5 on a fresh
    interpreter, the second clock reading is not taken immediately after the
    aggregate call: the print of the result lies between them. *)
Lemma second_reading_follows_the_print :
  trace (run [cell_4; cell_5; cell_7] Toy.fresh).2 =
    [EvRandint 0 100 (2 ^ 18) (2 ^ 8);
     EvTime (wall_clock 0);
     EvAggregate Pandas "kurtosis";
     EvPrint
       (VPandasSeries
          (pandas_reduce "kurtosis"
             (pandas.add_prefix "col"
                (pandas.DataFrame (randint 0 0 100 (2 ^ 18) (2 ^ 8)))) ∅));
     EvTime (wall_clock 1);
     EvPrint
       (VStr ("pandas kurtosis took "
              +:+ float_str
                    (py_round (PrimFloat.sub (wall_clock 1) (wall_clock 0)) 4)
              +:+ " seconds."))].
Proof. exact (pandas_timing_trace Toy.fresh). Qed.

(** The registration cells on the loaded fixture: [kurtosis] and [mad]
    still default to pandas. *)
Lemma registration_leaves_other_attributes_witness :
  DataFrame_attrs Toy.loaded !! "kurtosis" = Some (DefaultToPandas "kurtosis") /\
  DataFrame_attrs Toy.registered !! "kurtosis"
    = Some (DefaultToPandas "kurtosis") /\
  DataFrame_attrs Toy.registered !! "mad" = Some (DefaultToPandas "mad").
Proof.
  destruct (registration_leaves_other_attributes Toy.loaded)
    as (_ & Hk & Hother & _).
  split; [vm_compute; reflexivity|]. split.
  - unfold Toy.registered. rewrite Hk. vm_compute; reflexivity.
  - unfold Toy.registered.
    rewrite (proj1 (Hother "mad" ltac:(discriminate))). vm_compute; reflexivity.
Defined.

(** The whole notebook on a fresh interpreter draws once. *)
Lemma fixture_drawn_once_and_prefixed_witness :
  HostLaws Toy.host /\
  randints (run notebook Toy.fresh).2 = [EvRandint 0 100 (2 ^ 18) (2 ^ 8)].
Proof.
  split; [exact toy_laws|].
  exact (proj1 (@fixture_drawn_once_and_prefixed Toy.host toy_laws Toy.fresh)).
Defined.

(** Cells 6, 7 and 18 after the fixture leave the three inputs alone. *)
Lemma same_input_data_witness :
  HostLaws Toy.host /\
  Forall (fun c => c ∈ later_cells) [cell_6; cell_7; cell_18] /\
  inputs (run [cell_6; cell_7; cell_18] (run [cell_4; cell_5] Toy.fresh).2).2
    = inputs (run [cell_4; cell_5] Toy.fresh).2.
Proof.
  assert (Forall (fun c => c ∈ later_cells) [cell_6; cell_7; cell_18])
    as Hcells.
  { unfold later_cells. repeat constructor; set_solver. }
  split; [exact toy_laws|]. split; [exact Hcells|].
  destruct (@same_input_data Toy.host toy_laws Toy.fresh _ Hcells)
    as (a & _ & _ & _ & Hkeep).
  exact Hkeep.
Defined.

(** [df.kurtosis()] on the loaded fixture, and the evaluation of the
    exercise as shipped. *)
Lemma fallback_warns_and_grading_asserts_witness :
  DataFrame_attrs Toy.loaded !! "kurtosis" = Some (DefaultToPandas "kurtosis") /\
  (call_method (VModinDataFrame Toy.the_df) "kurtosis" ∅ Toy.loaded).1 =
    Returns
      (VModinSeries
         {| _series_query_compiler :=
              series_from_pandas
                (pandas_reduce "kurtosis"
                   (to_pandas (_query_compiler Toy.the_df)) ∅) |}) /\
  (cell_18 Toy.shipped).1 = Raises (AssertionError not_distributed).
Proof.
  destruct (fallback_warns_and_grading_asserts
              Toy.loaded "kurtosis" Toy.the_df ∅ Toy.shipped VEllipsis
              (pandas.add_prefix "col" (pandas.DataFrame Toy.table))
              (wall_clock 0) (wall_clock 1))
    as [Hcall Hgrade]; try reflexivity.
  split; [vm_compute; reflexivity|]. split.
  - rewrite Hcall. reflexivity.
  - exact Hgrade.
Defined.

(** C2, counterexample.  That the default-to-pandas warning is the
    material's only error-like behaviour fails on the notebook itself: the
    fixture cells, the exercise cell as shipped and the evaluation cell, run
    in this order on a fresh interpreter, end in an [AssertionError]. *)
Lemma shipped_exercise_ends_in_assertion :
  (run [cell_4; cell_5; cell_17; cell_18] Toy.fresh).1 =
    Raises (AssertionError "This is not a distributed Modin object, try again").
Proof. exact (shipped_exercise_raises Toy.fresh). Qed.

(** ** The further properties at work on the small host *)

(** The evaluation of the solved exercise leaves [modin_mad] alone. *)
Lemma evaluation_binds_only_its_names_witness :
  ("modin_mad" ∉ ["pandas_mad_start"; "pandas_mad"; "pandas_mad_end"]) /\
  globals (cell_18 Toy.solved).2 !! "modin_mad"
    = globals Toy.solved !! "modin_mad".
Proof.
  assert ("modin_mad" ∉ ["pandas_mad_start"; "pandas_mad"; "pandas_mad_end"])
    as Hname.
  { rewrite !not_elem_of_cons. repeat split; try discriminate.
    apply not_elem_of_nil. }
  split; [exact Hname|].
  exact (proj1 (evaluation_binds_only_its_names Toy.solved "modin_mad" Hname)).
Defined.

(** Cell 14 on the loaded fixture, after cell 12 but without cell 11. *)
Lemma custom_call_needs_both_registrations_witness :
  globals Toy.loaded !! "df" = Some (VModinDataFrame Toy.the_df) /\
  DataFrame_attrs Toy.loaded !! "kurtosis_custom" = None /\
  PandasQueryCompiler_attrs Toy.loaded !! "kurtosis_custom" = None /\
  (cell_14 (cell_12 Toy.loaded).2).1 = Raises (AttributeError "kurtosis_custom").
Proof.
  split; [reflexivity|]. split; [reflexivity|]. split; [reflexivity|].
  destruct (custom_call_needs_both_registrations Toy.loaded Toy.the_df
              eq_refl eq_refl eq_refl)
    as (_ & _ & _ & _ & Hraise & _).
  exact Hraise.
Defined.


(** The evaluation on the loaded fixture, cell 17 not run. *)
Lemma evaluation_without_exercise_witness :
  globals Toy.loaded !! "pandas_df"
    = Some (VPandasDataFrame
              (pandas.add_prefix "col" (pandas.DataFrame Toy.table))) /\
  globals Toy.loaded !! "modin_mad" = None /\
  (cell_18 Toy.loaded).1 = Raises (NameError "modin_mad").
Proof.
  split; [reflexivity|]. split; [reflexivity|].
  exact (evaluation_without_exercise Toy.loaded _ eq_refl eq_refl).
Defined.

(** The evaluation of the exercise as shipped prints nothing. *)
Lemma evaluation_reads_twice_and_prints_nothing_witness :
  globals Toy.shipped !! "pandas_df"
    = Some (VPandasDataFrame
              (pandas.add_prefix "col" (pandas.DataFrame Toy.table))) /\
  prints (cell_18 Toy.shipped).2 = prints Toy.shipped.
Proof.
  split; [reflexivity|].
  destruct (evaluation_reads_twice_and_prints_nothing Toy.shipped
              (pandas.add_prefix "col" (pandas.DataFrame Toy.table)) eq_refl)
    as (_ & Hprints & _).
  exact Hprints.
Defined.

(** The solved exercise stores exactly the baseline, and is faster. *)
Lemma exact_result_is_judged_on_time_witness :
  _to_pandas Toy.solved_mad
    = pandas_reduce "mad"
        (pandas.add_prefix "col" (pandas.DataFrame Toy.table)) ∅ /\
  globals Toy.solved !! "modin_mad" = Some (VModinSeries Toy.solved_mad) /\
  (cell_18 Toy.solved).1 =
    if greater (minus (wall_clock 3) (wall_clock 2))
               (minus (wall_clock 1) (wall_clock 0))
    then Returns tt
    else Raises (AssertionError too_slow).
Proof.
  split; [vm_compute; reflexivity|]. split; [reflexivity|].
  apply (exact_result_is_judged_on_time Toy.solved Toy.solved_mad
           (pandas.add_prefix "col" (pandas.DataFrame Toy.table))
           (wall_clock 0) (wall_clock 1));
    [reflexivity | reflexivity | reflexivity | reflexivity
    | vm_compute; reflexivity].
Defined.
